(** * noetry: environment lifecycle and manifest synchronisation

    A shallow embedding of [noetry/__main__.py].  Every Python function of
    the module is a computation in a small state-and-exception monad over a
    [World] (the file tree plus the trace of observable actions); everything
    the module delegates to its host (the platform names, the programs it
    spawns, [venv.create], the TOML reader, the YAML writer) is a field of a
    [Host] record, so that the theorems hold for every host. *)

From stdpp Require Import gmap strings list fin_maps.
From Stdlib Require Import ZArith.

#[local] Set Warnings "-register-all".
#[local] Open Scope string_scope.
#[local] Open Scope list_scope.

(* ===================================================================== *)
(** ** Paths and the file tree *)
(* ===================================================================== *)

(** A path is the list of its components below the root of the file tree.
    The module only ever calls [os.path.join] with a directory and literal
    one-component names, which appends the names. *)
Abbreviation Path := (list string).

Definition os_path_join (a : Path) (parts : list string) : Path := a ++ parts.

(** The exceptions that can escape the module. *)
Inductive Exn :=
| FileNotFoundError
| NotADirectoryError
| IsADirectoryError
| NameError (name : string)
| AttributeError
| TypeError
| HostError (what : string).

Inductive node :=
| File (content : string)
| Dir (entries : gmap string node).

Module Fs.

(** Resolving a path: [ENOENT] when a component is missing, [ENOTDIR]
    when the walk has to go through a regular file. *)
Fixpoint stat (p : Path) (n : node) : Exn + node :=
  match p with
  | [] => inr n
  | x :: p' =>
      match n with
      | File _ => inl NotADirectoryError
      | Dir es =>
          match es !! x with
          | Some n' => stat p' n'
          | None => inl FileNotFoundError
          end
      end
  end.

(** [os.path.exists] *)
Definition exists_ (p : Path) (n : node) : bool :=
  match stat p n with inr _ => true | inl _ => false end.

Definition is_dir (p : Path) (n : node) : bool :=
  match stat p n with inr (Dir _) => true | _ => false end.

(** [open(p, 'r').read()] *)
Definition read (p : Path) (n : node) : Exn + string :=
  match stat p n with
  | inl e => inl e
  | inr (File c) => inr c
  | inr (Dir _) => inl IsADirectoryError
  end.

(** [open(p, 'w').write(c)]: the file is created or truncated, its
    directory has to be there already. *)
Fixpoint write (p : Path) (c : string) (n : node) : Exn + node :=
  match p with
  | [] =>
      match n with
      | File _ => inr (File c)
      | Dir _ => inl IsADirectoryError
      end
  | x :: p' =>
      match n with
      | File _ => inl NotADirectoryError
      | Dir es =>
          match es !! x with
          | Some n' =>
              match write p' c n' with
              | inr n'' => inr (Dir (<[x := n'']> es))
              | inl e => inl e
              end
          | None =>
              match p' with
              | [] => inr (Dir (<[x := File c]> es))
              | _ :: _ => inl FileNotFoundError
              end
          end
      end
  end.

End Fs.

(* ===================================================================== *)
(** ** Parsed TOML and Python dictionaries *)
(* ===================================================================== *)

(** What the module can tell apart in a parsed TOML value: a string, a
    table (a Python [dict]) and anything else (numbers, booleans, arrays,
    dates). *)
Inductive toml :=
| TStr (s : string)
| TTable (d : list (string * toml))
| TOther (tag : string).

(** A [dict] keeps its keys in insertion order. *)
Abbreviation dict := (list (string * toml)).

Module Dict.

Definition keys (d : dict) : list string := map fst d.

Fixpoint lookup (k : string) (d : dict) : option toml :=
  match d with
  | [] => None
  | (k', v) :: d' => if String.eqb k' k then Some v else lookup k d'
  end.

(** [k in d] *)
Definition mem (k : string) (d : dict) : bool :=
  match lookup k d with Some _ => true | None => false end.

(** [del d[k]] *)
Fixpoint del (k : string) (d : dict) : dict :=
  match d with
  | [] => []
  | (k', v) :: d' => if String.eqb k' k then del k d' else (k', v) :: del k d'
  end.

(** [d[k] = v]: an existing key keeps its position, a new one goes last. *)
Fixpoint set (k : string) (v : toml) (d : dict) : dict :=
  match d with
  | [] => [(k, v)]
  | (k', v') :: d' =>
      if String.eqb k' k then (k', v) :: d' else (k', v') :: set k v d'
  end.

(** [{**a, **b}] *)
Definition merge (a b : dict) : dict :=
  fold_left (fun acc e => set (fst e) (snd e) acc) b a.

End Dict.

(* ===================================================================== *)
(** ** Processes, events, worlds and hosts *)
(* ===================================================================== *)

Inductive Prog :=
| ProgPath (p : Path)       (* an executable named by its path *)
| ProgName (name : string). (* a bare name, searched by the host *)

Inductive Proc :=
| Exec (prog : Prog) (args : list string) (capture : bool)
| Shell (cmd : string) (executable : option string).

(** What a process that ran leaves behind. *)
Record Completed := mkCompleted {
  proc_fs : node;
  proc_stdout : string;
  returncode : Z
}.

Inductive Event :=
| EvPrint (line : string)
| EvSpawn (p : Proc)
| EvVenvCreate (dir : Path)
| EvWrite (path : Path) (content : string).

Record World := mkWorld {
  fs : node;
  trace : list Event
}.

Definition emit (e : Event) (w : World) : World :=
  {| fs := fs w; trace := trace w ++ [e] |}.

Record Host := mkHost {
  os_name : string;                                 (* os.name *)
  sys_platform : string;                            (* sys.platform *)
  getcwd : Path;                                    (* where the process was started *)
  path_str : Path -> string;                        (* a path as text *)
  run_program : Proc -> node -> Exn + Completed;    (* a process, once started *)
  venv_create : Path -> node -> node * option Exn;  (* venv.create(dir, with_pip=True) *)
  toml_load : string -> Exn + dict;                 (* toml.load *)
  yaml_dump : list (string * string) -> string;     (* yaml.dump *)
  py_str : toml -> string                           (* str() of a value that is not a str *)
}.

(* ===================================================================== *)
(** ** The monad *)
(* ===================================================================== *)

Inductive Result (A : Type) :=
| Ok (a : A) (w : World)
| Raise (e : Exn) (w : World).
Arguments Ok {A} a w.
Arguments Raise {A} e w.

Definition world_of {A} (r : Result A) : World :=
  match r with Ok _ w => w | Raise _ w => w end.

Definition M (A : Type) : Type := World -> Result A.

#[global] Instance M_ret : MRet M := fun A a w => Ok a w.
#[global] Instance M_bind : MBind M := fun A B f m w =>
  match m w with
  | Ok a w' => f a w'
  | Raise e w' => Raise e w'
  end.

Definition raise {A} (e : Exn) : M A := fun w => Raise e w.

Definition lift {A} (r : Exn + A) : M A :=
  match r with inl e => raise e | inr a => mret a end.

Definition print (s : string) : M unit := fun w => Ok tt (emit (EvPrint s) w).

Definition os_path_exists (p : Path) : M bool := fun w => Ok (Fs.exists_ p (fs w)) w.

Definition open_read (p : Path) : M string := fun w =>
  match Fs.read p (fs w) with
  | inl e => Raise e w
  | inr c => Ok c w
  end.

Definition open_write (p : Path) (c : string) : M unit := fun w =>
  match Fs.write p c (fs w) with
  | inl e => Raise e w
  | inr n => Ok tt {| fs := n; trace := trace w ++ [EvWrite p c] |}
  end.

(** Starting a program named by a path fails with the error of the path
    lookup ([FileNotFoundError] for a missing component) when the directory
    that should hold the program does not resolve; whether the file itself
    is there (with or without a suffix) and may be executed is the host's
    business. *)
Definition launch_error (pr : Proc) (n : node) : option Exn :=
  match pr with
  | Exec (ProgPath p) _ _ =>
      match Fs.stat (removelast p) n with
      | inl e => Some e
      | inr (File _) => Some NotADirectoryError
      | inr (Dir _) => None
      end
  | _ => None
  end.

(** [subprocess.run] without [check]: it raises when the process cannot be
    started, and otherwise waits for it and returns, whatever its exit
    status.  Only a process that did start is recorded in the trace. *)
Definition subprocess_run (h : Host) (pr : Proc) : M Completed := fun w =>
  match launch_error pr (fs w) with
  | Some e => Raise e w
  | None =>
      match run_program h pr (fs w) with
      | inl e => Raise e w
      | inr r => Ok r {| fs := proc_fs r; trace := trace w ++ [EvSpawn pr] |}
      end
  end.

(** [os.getcwd()]: the working directory of the process, which has to be
    there still; once it has been removed the call raises
    [FileNotFoundError]. *)
Definition os_getcwd (h : Host) : M Path := fun w =>
  if Fs.is_dir (getcwd h) (fs w) then Ok (getcwd h) w
  else Raise FileNotFoundError w.

Definition venv_create_call (h : Host) (dir : Path) : M unit := fun w =>
  let '(n, e) := venv_create h dir (fs w) in
  let w' := {| fs := n; trace := trace w ++ [EvVenvCreate dir] |} in
  match e with
  | Some e => Raise e w'
  | None => Ok tt w'
  end.

(* ===================================================================== *)
(** ** The module *)
(* ===================================================================== *)

Definition NOETRY_YML : string := ".noetry.yml".

(** The line feed. *)
Definition newline : string := String (Ascii.ascii_of_nat 10) EmptyString.

Definition no_venv_message : string :=
  "Error: No virtual environment found in this project. Please use 'noetry create'.".

Definition help_text : string :=
  String.concat newline
    [ "";
      "Noetry - A simple virtual environment and dependency manager";
      "";
      "Commands:";
      "    create               - Create a new virtual environment for the project";
      "    delete               - Delete the virtual environment for the project";
      "    add <pkg>            - Install a package and add it to requirements.txt";
      "    remove <pkg>         - Uninstall a package and remove it from requirements.txt";
      "    set-python <version> - Set the Python version for the virtual environment";
      "    init                 - Initialize a new .noetry.yml configuration file";
      "    convert              - Convert a Poetry project to a Noetry project";
      "    run <cmd>            - Run a command within the virtual environment";
      "    list                 - List all packages installed in the virtual environment";
      "";
      "Example:";
      "    noetry add requests";
      "    noetry run python script.py";
      "    noetry list";
      "    " ].

(** [d.get(k, {})], on whatever [d] happens to be. *)
Definition py_get (k : string) (v : toml) : Exn + toml :=
  match v with
  | TTable d =>
      match Dict.lookup k d with
      | Some x => inr x
      | None => inr (TTable [])
      end
  | _ => inl AttributeError
  end.

(** [poetry_data.get('tool', {}).get('poetry', {}).get(group, {})] *)
Definition poetry_group (group : string) (poetry_data : dict) : Exn + toml :=
  match py_get "tool" (TTable poetry_data) with
  | inl e => inl e
  | inr tool =>
      match py_get "poetry" tool with
      | inl e => inl e
      | inr poetry => py_get group poetry
      end
  end.

(** Lines 136-141 up to the start of the loop: the [python] key leaves the
    runtime table and the development table is merged over it.  Neither
    [in], [del] nor [**] gets past a value that is not a table. *)
Definition merged_dependencies (dependencies dev_dependencies : toml) : Exn + dict :=
  match dependencies, dev_dependencies with
  | TTable deps, TTable dev =>
      let deps := if Dict.mem "python" deps then Dict.del "python" deps else deps in
      inr (Dict.merge deps dev)
  | _, _ => inl TypeError
  end.

Section Program.

Context (h : Host).

(** [f"{version}"] *)
Definition format_value (v : toml) : string :=
  match v with
  | TStr s => s
  | _ => py_str h v
  end.

(** [f"{name}{version}"] *)
Definition requirement_line (e : string * toml) : string :=
  fst e +:+ format_value (snd e).

Definition create_virtualenv (project_dir : Path) : M unit :=
  let venv_dir := os_path_join project_dir [".venv"] in
  venv_create_call h venv_dir;;
  print ("Created virtual environment at: " +:+ path_str h venv_dir).

Definition delete_virtualenv (project_dir : Path) : M unit :=
  let venv_dir := os_path_join project_dir [".venv"] in
  subprocess_run h (Exec (ProgName "rm") ["-rf"; path_str h venv_dir] false);;
  print ("Deleted virtual environment at: " +:+ path_str h venv_dir).

Definition get_pip_exe (venv_dir : Path) : M Path :=
  mret (if String.eqb (sys_platform h) "win32"
        then os_path_join venv_dir ["Scripts"; "pip"]
        else os_path_join venv_dir ["bin"; "pip"]).

Definition update_requirements (project_dir : Path) : M unit :=
  let venv_dir := os_path_join project_dir [".venv"] in
  pip_exe ← get_pip_exe venv_dir;
  result ← subprocess_run h (Exec (ProgPath pip_exe) ["freeze"] true);
  let requirements := proc_stdout result in
  open_write (os_path_join project_dir ["requirements.txt"]) requirements.

Definition install_package (project_dir : Path) (package : string) : M unit :=
  let venv_dir := os_path_join project_dir [".venv"] in
  pip_exe ← get_pip_exe venv_dir;
  subprocess_run h (Exec (ProgPath pip_exe) ["install"; package] false);;
  update_requirements project_dir;;
  print ("Installed package: " +:+ package).

Definition uninstall_package (project_dir : Path) (package : string) : M unit :=
  let venv_dir := os_path_join project_dir [".venv"] in
  pip_exe ← get_pip_exe venv_dir;
  subprocess_run h (Exec (ProgPath pip_exe) ["uninstall"; "-y"; package] false);;
  update_requirements project_dir;;
  print ("Uninstalled package: " +:+ package).

Definition run_in_venv (project_dir : Path) (commands : list string) : M unit :=
  let venv_dir := os_path_join project_dir [".venv"] in
  found ← os_path_exists venv_dir;
  if negb found then print no_venv_message
  else
    let bin_activate := os_path_join venv_dir ["bin"; "activate"] in
    probe ← os_path_exists bin_activate;
    let activate_script :=
      if negb probe then os_path_join venv_dir ["Scripts"; "activate"]
      else bin_activate in
    if String.eqb (os_name h) "posix" then
      let cmd := ". " +:+ path_str h activate_script +:+ " && " +:+ String.concat " " commands in
      subprocess_run h (Shell cmd None);; mret tt
    else if String.eqb (os_name h) "nt" then
      let cmd := path_str h activate_script +:+ " && " +:+ String.concat " " commands in
      subprocess_run h (Shell cmd (Some "cmd.exe"));; mret tt
    else print "Error: Unsupported OS.".

Definition init_project (project_dir : Path) : M unit :=
  let config_path := os_path_join project_dir [NOETRY_YML] in
  found ← os_path_exists config_path;
  if (found : bool) then print (NOETRY_YML +:+ " already exists.")
  else
    let default_config := [("python_version", "3.9")] in
    open_write config_path (yaml_dump h default_config);;
    print ("Initialized " +:+ NOETRY_YML +:+ " with default Python version " +:+ "3.9" +:+ ".");;
    create_virtualenv project_dir.

Definition list_packages (project_dir : Path) : M unit :=
  let venv_dir := os_path_join project_dir [".venv"] in
  found ← os_path_exists venv_dir;
  if negb found then print no_venv_message
  else
    pip_exe ← get_pip_exe venv_dir;
    subprocess_run h (Exec (ProgPath pip_exe) ["list"] false);; mret tt.

Definition convert_from_poetry (project_dir : Path) : M unit :=
  let poetry_file := os_path_join project_dir ["pyproject.toml"] in
  found ← os_path_exists poetry_file;
  if negb found then print "Error: pyproject.toml not found in the current directory."
  else
    text ← open_read poetry_file;
    poetry_data ← lift (toml_load h text);
    dependencies ← lift (poetry_group "dependencies" poetry_data);
    dev_dependencies ← lift (poetry_group "dev-dependencies" poetry_data);
    merged ← lift (merged_dependencies dependencies dev_dependencies);
    let requirements := map requirement_line merged in
    open_write (os_path_join project_dir ["requirements.txt"])
               (String.concat newline requirements);;
    init_project project_dir;;
    print "Converted Poetry project to Noetry.".

Definition show_help : M unit := print help_text.

(** The module defines no [set_python_version]: looking the name up is
    what the call in [main] does, and all it does. *)
Definition set_python_version (project_dir : Path) (version : string) : M unit :=
  raise (NameError "set_python_version").

Definition main (argv : list string) : M unit :=
  match argv with
  | [] | [_] => show_help
  | _ :: cmd :: args =>
      project_dir ← os_getcwd h;
      if String.eqb cmd "create" then create_virtualenv project_dir
      else if String.eqb cmd "delete" then delete_virtualenv project_dir
      else if String.eqb cmd "add" then
        match args with
        | package :: _ => install_package project_dir package
        | [] => print "Please specify a package to add."
        end
      else if String.eqb cmd "remove" then
        match args with
        | package :: _ => uninstall_package project_dir package
        | [] => print "Please specify a package to remove."
        end
      else if String.eqb cmd "set-python" then
        match args with
        | version :: _ => set_python_version project_dir version
        | [] => print "Please specify a Python version."
        end
      else if String.eqb cmd "init" then init_project project_dir
      else if String.eqb cmd "convert" then convert_from_poetry project_dir
      else if String.eqb cmd "run" then
        match args with
        | _ :: _ => run_in_venv project_dir args
        | [] => print "Please specify a command to run."
        end
      else if String.eqb cmd "list" then list_packages project_dir
      else (print ("Unknown command: " +:+ cmd);; show_help)
  end.

End Program.

(* ===================================================================== *)
(** ** Vocabulary of the statements *)
(* ===================================================================== *)

(** The package manifest of a project. *)
Definition manifest_path (project_dir : Path) : Path :=
  os_path_join project_dir ["requirements.txt"].

Definition config_path (project_dir : Path) : Path :=
  os_path_join project_dir [NOETRY_YML].

(** The installer of a project's environment, where [get_pip_exe] puts it. *)
Definition pip_of (h : Host) (project_dir : Path) : Path :=
  if String.eqb (sys_platform h) "win32"
  then project_dir ++ [".venv"; "Scripts"; "pip"]
  else project_dir ++ [".venv"; "bin"; "pip"].

Definition pip (h : Host) (project_dir : Path) (args : list string) (capture : bool) : Proc :=
  Exec (ProgPath (pip_of h project_dir)) args capture.

Definition freeze_proc (h : Host) (project_dir : Path) : Proc :=
  pip h project_dir ["freeze"] true.

(** [s.split('\n')] *)
Fixpoint lines (s : string) : list string :=
  match s with
  | EmptyString => [EmptyString]
  | String a s' =>
      if Ascii.eqb a (Ascii.ascii_of_nat 10) then EmptyString :: lines s'
      else match lines s' with
           | [] => [String a EmptyString]
           | l :: ls => String a l :: ls
           end
  end.

(** *** Entries of a manifest

    [pip freeze] writes one requirement per line: [Name==version],
    [Name @ url] for a direct reference, [-e url#egg=Name] for an editable
    checkout, and [#] comments.  The name is spelled as the distribution
    spells it, so names are compared after the normalisation of PEP 503
    (lower case, every run of [-], [_], [.] is one [-]). *)

Definition is_name_char (a : Ascii.ascii) : bool :=
  let n := Ascii.nat_of_ascii a in
  (((48 <=? n) && (n <=? 57)) || ((65 <=? n) && (n <=? 90)) ||
   ((97 <=? n) && (n <=? 122)) || (n =? 45) || (n =? 95) || (n =? 46))%nat.

Definition is_name_separator (a : Ascii.ascii) : bool :=
  let n := Ascii.nat_of_ascii a in
  ((n =? 45) || (n =? 95) || (n =? 46))%nat.

Definition lower (a : Ascii.ascii) : Ascii.ascii :=
  let n := Ascii.nat_of_ascii a in
  if ((65 <=? n) && (n <=? 90))%nat then Ascii.ascii_of_nat (n + 32) else a.

(** The longest prefix made of name characters. *)
Fixpoint leading_name (s : string) : string :=
  match s with
  | EmptyString => EmptyString
  | String a s' => if is_name_char a then String a (leading_name s') else EmptyString
  end.

(** What follows the first [#egg=]. *)
Fixpoint after_egg (s : string) : option string :=
  match s with
  | EmptyString => None
  | String a s' =>
      if String.prefix "#egg=" s
      then Some (String.substring 5 (String.length s - 5)%nat s)
      else after_egg s'
  end.

Fixpoint canonical_from (in_run : bool) (s : string) : string :=
  match s with
  | EmptyString => EmptyString
  | String a s' =>
      if is_name_separator a
      then if in_run then canonical_from true s'
           else String (Ascii.ascii_of_nat 45) (canonical_from true s')
      else String (lower a) (canonical_from false s')
  end.

(** [re.sub(r"[-_.]+", "-", name).lower()] *)
Definition canonical_name (name : string) : string := canonical_from false name.

(** The distribution that a line of a manifest names, if it names one. *)
Definition entry_name (line : string) : option string :=
  let named s := match leading_name s with
                 | EmptyString => None
                 | n => Some n
                 end in
  if String.prefix "-e " line
  then match after_egg line with
       | Some s => named s
       | None => None
       end
  else named line.

Definition names_package (package : string) (line : string) : bool :=
  match entry_name line with
  | Some n => String.eqb (canonical_name n) (canonical_name package)
  | None => false
  end.

(** A manifest has an entry for a package when one of its lines names it. *)
Definition manifest_mentions (package : string) (content : string) : bool :=
  existsb (names_package package) (lines content).

(** *** The import, in the words of the specification *)

(** The constraint of an entry as text: a string stands for itself, any
    other value is printed as [str] prints it. *)
Definition constraint_text (h : Host) (v : toml) : string :=
  match v with
  | TStr s => s
  | _ => py_str h v
  end.

(** The runtime group without the interpreter's own entry. *)
Definition without_python (runtime : dict) : dict :=
  List.filter (fun e => negb (String.eqb (fst e) "python")) runtime.

(** Development over runtime: every runtime entry in its place, with the
    development constraint where the development group has the key, and
    then the entries that only the development group has. *)
Definition merged_spec (runtime development : dict) : dict :=
  map (fun e => (fst e, match Dict.lookup (fst e) development with
                        | Some v => v
                        | None => snd e
                        end)) runtime ++
  List.filter (fun e => negb (Dict.mem (fst e) runtime)) development.

(** The four operations that need an environment. *)
Inductive EnvOp :=
| OpList
| OpRun (commands : list string)
| OpInstall (package : string)
| OpUninstall (package : string).

Definition perform (h : Host) (project_dir : Path) (op : EnvOp) : M unit :=
  match op with
  | OpList => list_packages h project_dir
  | OpRun commands => run_in_venv h project_dir commands
  | OpInstall package => install_package h project_dir package
  | OpUninstall package => uninstall_package h project_dir package
  end.

(** The two ways in which a missing environment comes back to the user:
    the module's own message, or the [FileNotFoundError] of the installer
    that is not there. *)
Definition reports_not_found (w : World) (r : Result unit) : Prop :=
  r = Ok tt (emit (EvPrint no_venv_message) w) \/ r = Raise FileNotFoundError w.

Definition is_spawn (e : Event) : bool :=
  match e with EvSpawn _ => true | _ => false end.

(** *** What is assumed of the installer *)


(** The enumeration is a query on the environment: it changes no file, and
    what it prints is determined by the environment directory. *)
Definition freeze_is_query (h : Host) : Prop :=
  forall (pd : Path) (n : node) (r : Completed),
    run_program h (freeze_proc h pd) n = inr r ->
    proc_fs r = n /\
    forall n' : node,
      Fs.stat (pd ++ [".venv"]) n' = Fs.stat (pd ++ [".venv"]) n ->
      exists r', run_program h (freeze_proc h pd) n' = inr r' /\
                 proc_stdout r' = proc_stdout r.

(* ===================================================================== *)
(** ** A small host to run the module on *)
(* ===================================================================== *)

Module Demo.

Definition render (p : Path) : string := "/" +:+ String.concat "/" p.

Definition pinned : string := "requests==2.31.0" +:+ newline.

(** The installer of this host knows one package, [requests], and keeps
    what it installed in the file [installed] of the environment. *)
Definition installed_db (pip_exe : Path) : Path :=
  removelast (removelast pip_exe) ++ ["installed"].

Definition frozen (pip_exe : Path) (n : node) : string :=
  match Fs.read (installed_db pip_exe) n with
  | inr c => if String.eqb c pinned then pinned else ""
  | inl _ => ""
  end.

Definition record (pip_exe : Path) (c : string) (n : node) : Completed :=
  match Fs.write (installed_db pip_exe) c n with
  | inr n' => mkCompleted n' "" 0
  | inl _ => mkCompleted n "" 1
  end.

Definition programs (pr : Proc) (n : node) : Exn + Completed :=
  match pr with
  | Exec (ProgPath exe) ["freeze"] _ => inr (mkCompleted n (frozen exe n) 0)
  | Exec (ProgPath exe) ["install"; package] _ =>
      if String.eqb package "requests" then inr (record exe pinned n)
      else inr (mkCompleted n "" 1)
  | Exec (ProgPath exe) ["uninstall"; "-y"; package] _ =>
      if String.eqb package "requests" then inr (record exe "" n)
      else inr (mkCompleted n "" 1)
  | _ => inr (mkCompleted n "" 0)
  end.


Definition fresh_env : node :=
  Dir (<["bin" := Dir (<["pip" := File ""]> (<["activate" := File ""]> ∅))]> ∅).

(** [venv.create] of this host: a fresh environment, when the project
    directory is there. *)
Fixpoint plant (p : Path) (n : node) : option node :=
  match p, n with
  | [], _ => None
  | [x], Dir es => Some (Dir (<[x := fresh_env]> es))
  | x :: p', Dir es =>
      match es !! x with
      | Some n' =>
          match plant p' n' with
          | Some n'' => Some (Dir (<[x := n'']> es))
          | None => None
          end
      | None => None
      end
  | _, File _ => None
  end.

Definition make_env (dir : Path) (n : node) : node * option Exn :=
  match plant dir n with
  | Some n' => (n', None)
  | None => (n, Some FileNotFoundError)
  end.

(** One document is all its TOML reader knows. *)
Definition sample_text : string := "[tool.poetry.dependencies] ...".

Definition sample_doc : dict :=
  [("tool", TTable [("poetry", TTable
     [("dependencies", TTable [("python", TStr "^3.9"); ("A", TStr "^1.0"); ("B", TStr "^2.0")]);
      ("dev-dependencies", TTable [("B", TStr "^3.0"); ("C", TStr "^1.0")])])])].

Definition read_toml (text : string) : Exn + dict :=
  if String.eqb text sample_text then inr sample_doc
  else inl (HostError "TomlDecodeError").

Definition dump_yaml (kv : list (string * string)) : string :=
  String.concat "" (map (fun e => fst e +:+ ": '" +:+ snd e +:+ "'" +:+ newline) kv).

Definition host (osname platform : string) : Host :=
  {| os_name := osname;
     sys_platform := platform;
     getcwd := ["proj"];
     path_str := render;
     run_program := programs;
     venv_create := make_env;
     toml_load := read_toml;
     yaml_dump := dump_yaml;
     py_str := fun _ => "<object>" |}.

Definition linux : Host := host "posix" "linux".

(** The same host with an installer that fails at everything. *)
Definition broken : Host :=
  {| os_name := "posix";
     sys_platform := "linux";
     getcwd := ["proj"];
     path_str := render;
     run_program := fun _ n => inr (mkCompleted n "" 1);
     venv_create := make_env;
     toml_load := read_toml;
     yaml_dump := dump_yaml;
     py_str := fun _ => "<object>" |}.

Definition windows : Host := host "nt" "win32".
Definition jython : Host := host "java" "java".

Definition world (n : node) : World := {| fs := n; trace := [] |}.

(** [/proj] with nothing in it. *)
Definition bare : node := Dir (<["proj" := Dir ∅]> ∅).

(** [/proj] with an environment. *)
Definition with_env : node := Dir (<["proj" := Dir (<[".venv" := fresh_env]> ∅)]> ∅).

(** [/proj] with an environment and its configuration. *)
Definition initialised : node :=
  Dir (<["proj" := Dir (<[NOETRY_YML := File "python_version: '3.8'"]>
                          (<[".venv" := fresh_env]> ∅))]> ∅).

(** [/proj] with an environment and a manifest. *)
Definition with_manifest : node :=
  Dir (<["proj" := Dir (<["requirements.txt" := File pinned]>
                          (<[".venv" := fresh_env]> ∅))]> ∅).

(** [/proj] with a manifest and no environment. *)
Definition manifest_only : node :=
  Dir (<["proj" := Dir (<["requirements.txt" := File pinned]> ∅)]> ∅).

(** [/proj] with an environment whose place for the manifest is taken by
    a directory. *)
Definition manifest_is_directory : node :=
  Dir (<["proj" := Dir (<["requirements.txt" := Dir ∅]>
                          (<[".venv" := fresh_env]> ∅))]> ∅).

(** [/proj] with a Poetry manifest. *)
Definition poetry_project : node :=
  Dir (<["proj" := Dir (<["pyproject.toml" := File sample_text]> ∅)]> ∅).

End Demo.

(* ===================================================================== *)
(** ** The rest of the module, and more vocabulary *)
(* ===================================================================== *)

(** [get_project_config]: the configuration as [yaml.safe_load] reads it.
    The loader is the caller's: the host record has no YAML reader. *)
Definition get_project_config {C : Type} (yaml_safe_load : string -> Exn + C)
    (project_dir : Path) : M C :=
  text ← open_read (os_path_join project_dir [NOETRY_YML]);
  lift (yaml_safe_load text).

(** The configuration that [init_project] writes. *)
Definition default_config : list (string * string) := [("python_version", "3.9")].

Definition poetry_path (project_dir : Path) : Path :=
  os_path_join project_dir ["pyproject.toml"].

Definition venv_path (project_dir : Path) : Path :=
  os_path_join project_dir [".venv"].

(** The command words that [main] knows. *)
Definition known_commands : list string :=
  ["create"; "delete"; "add"; "remove"; "set-python"; "init"; "convert"; "run"; "list"].

(** What the package operations may do: start the environment's installer,
    write the manifest, print. *)
Definition installer_event (h : Host) (project_dir : Path) (e : Event) : Prop :=
  match e with
  | EvSpawn p => exists args capture, p = pip h project_dir args capture
  | EvWrite path _ => path = manifest_path project_dir
  | EvPrint _ => True
  | EvVenvCreate _ => False
  end.

(** The shell command of [run_in_venv] on a POSIX or Windows host, given
    the file tree it probes. *)
Definition activation (h : Host) (project_dir : Path) (n : node) : Path :=
  project_dir ++ [".venv";
                  if Fs.exists_ (project_dir ++ [".venv"; "bin"; "activate"]) n
                  then "bin" else "Scripts";
                  "activate"].

Definition shell_of (h : Host) (project_dir : Path) (commands : list string) (n : node) : Proc :=
  if String.eqb (os_name h) "posix"
  then Shell (". " +:+ path_str h (activation h project_dir n) +:+ " && " +:+
              String.concat " " commands) None
  else Shell (path_str h (activation h project_dir n) +:+ " && " +:+
              String.concat " " commands) (Some "cmd.exe").

(** The keys of [b] that [a] does not have, in the order of [b]. *)
Definition new_keys (a b : dict) : list string :=
  List.filter (fun k => negb (Dict.mem k a)) (Dict.keys b).

(** The small host with a [venv.create] that always fails. *)
Definition host_without_venv : Host :=
  {| os_name := "posix";
     sys_platform := "linux";
     getcwd := ["proj"];
     path_str := Demo.render;
     run_program := Demo.programs;
     venv_create := fun _ n => (n, Some (HostError "ensurepip"));
     toml_load := Demo.read_toml;
     yaml_dump := Demo.dump_yaml;
     py_str := fun _ => "<object>" |}.

(** A YAML reader that knows the default configuration. *)
Definition read_default_yaml (text : string) : Exn + list (string * string) :=
  if String.eqb text (Demo.dump_yaml default_config) then inr default_config
  else inl (HostError "YAMLError").

(** [/proj] with a Poetry manifest, a configuration and an old manifest. *)
Definition converted_before : node :=
  Dir (<["proj" := Dir (<["pyproject.toml" := File Demo.sample_text]>
                          (<[NOETRY_YML := File "python_version: '3.8'"]>
                             (<["requirements.txt" := File "old==0.1"]> ∅)))]> ∅).

(** The small host with a TOML reader that finds [doc] in every file. *)
Definition host_reading (doc : dict) : Host :=
  {| os_name := "posix";
     sys_platform := "linux";
     getcwd := ["proj"];
     path_str := Demo.render;
     run_program := Demo.programs;
     venv_create := Demo.make_env;
     toml_load := fun _ => inr doc;
     yaml_dump := Demo.dump_yaml;
     py_str := fun _ => "<object>" |}.

(* ===================================================================== *)
(** ** Facts about the file tree *)
(* ===================================================================== *)

Module FsFacts.

Lemma stat_app (p q : Path) (n : node) :
  Fs.stat (p ++ q) n =
  match Fs.stat p n with
  | inl e => inl e
  | inr n' => Fs.stat q n'
  end.
Proof.
  revert n. induction p as [|x p IH]; intros n; simpl; [done|].
  destruct n as [c|es]; [done|].
  destruct (es !! x) as [n'|]; [apply IH | done].
Qed.

(** Below an existing directory, a name that does not resolve is simply
    missing. *)
Lemma missing_below_dir (pd : Path) (x : string) (n : node) :
  Fs.is_dir pd n = true ->
  Fs.exists_ (pd ++ [x]) n = false ->
  forall q, Fs.stat (pd ++ x :: q) n = inl FileNotFoundError.
Proof.
  unfold Fs.is_dir, Fs.exists_. intros Hd Hx q.
  rewrite stat_app in Hx. rewrite stat_app.
  destruct (Fs.stat pd n) as [e|[c|es]]; try discriminate.
  simpl in *. destruct (es !! x); [discriminate | done].
Qed.

Lemma write_read (p : Path) (c : string) (n n' : node) :
  Fs.write p c n = inr n' -> Fs.read p n' = inr c.
Proof.
  unfold Fs.read. revert n n'.
  induction p as [|x p IH]; intros n n' H; simpl in *.
  - destruct n; simplify_eq. done.
  - destruct n as [c0|es]; [done|].
    destruct (es !! x) as [n0|] eqn:E.
    + destruct (Fs.write p c n0) as [e|n1] eqn:W; simplify_eq.
      simpl. rewrite lookup_insert_eq. by apply (IH n0).
    + destruct p; simplify_eq. simpl. by rewrite lookup_insert_eq.
Qed.

(** Writing the same content a second time changes nothing. *)
Lemma write_twice (p : Path) (c : string) (n n' : node) :
  Fs.write p c n = inr n' -> Fs.write p c n' = inr n'.
Proof.
  revert n n'.
  induction p as [|x p IH]; intros n n' H; simpl in *.
  - destruct n; simplify_eq. done.
  - destruct n as [c0|es]; [done|].
    destruct (es !! x) as [n0|] eqn:E.
    + destruct (Fs.write p c n0) as [e|n1] eqn:W; simplify_eq.
      simpl. rewrite lookup_insert_eq, (IH _ _ W). by rewrite insert_insert_eq.
    + destruct p; simplify_eq. simpl. rewrite lookup_insert_eq.
      by rewrite insert_insert_eq.
Qed.

(** A write leaves every path that branches off elsewhere as it was. *)
Lemma write_frame (r : Path) (x y : string) (p q : Path) (c : string) (n n' : node) :
  x <> y ->
  Fs.write (r ++ x :: p) c n = inr n' ->
  Fs.stat (r ++ y :: q) n' = Fs.stat (r ++ y :: q) n.
Proof.
  intros Hxy. revert n n'.
  induction r as [|z r IH]; intros n n' H; simpl in *.
  - destruct n as [c0|es]; [done|].
    destruct (es !! x) as [n0|] eqn:E.
    + destruct (Fs.write p c n0) as [e|n1]; simplify_eq.
      simpl. by rewrite lookup_insert_ne.
    + destruct p; simplify_eq. simpl. by rewrite lookup_insert_ne.
  - destruct n as [c0|es]; [done|].
    destruct (es !! z) as [n0|] eqn:E.
    + destruct (Fs.write (r ++ x :: p) c n0) as [e|n1] eqn:W; simplify_eq.
      simpl. rewrite lookup_insert_eq. by apply IH.
    + destruct (r ++ x :: p)%list eqn:R; [by destruct r | done].
Qed.

(** A file can be written into an existing directory unless its name is
    taken by a directory. *)
Lemma write_in_dir (pd : Path) (x : string) (c : string) (n : node) :
  Fs.is_dir pd n = true ->
  Fs.is_dir (pd ++ [x]) n = false ->
  exists n', Fs.write (pd ++ [x]) c n = inr n'.
Proof.
  unfold Fs.is_dir. revert n.
  induction pd as [|z pd IH]; intros n Hd Hx; simpl in *.
  - destruct n as [c0|es]; [done|].
    destruct (es !! x) as [[c1|es1]|] eqn:E; simpl in *; eauto. done.
  - destruct n as [c0|es]; [done|].
    destruct (es !! z) as [n0|] eqn:E; [|done].
    destruct (IH n0 Hd Hx) as [n1 ->]. eauto.
Qed.

Lemma removelast_snoc {A} (l : list A) (a b : A) :
  removelast (l ++ [a; b]) = l ++ [a].
Proof.
  induction l as [|z l IH]; [done|].
  simpl. rewrite IH. by destruct l.
Qed.

End FsFacts.

(* ===================================================================== *)
(** ** Facts about dictionaries *)
(* ===================================================================== *)

Module DictFacts.

Lemma lookup_None_keys (k : string) (d : dict) :
  Dict.lookup k d = None <-> ~ In k (Dict.keys d).
Proof.
  induction d as [|[k' v] d IH]; simpl; [tauto|].
  destruct (String.eqb_spec k' k) as [->|Hne]; [split; [done | tauto]|].
  rewrite IH. tauto.
Qed.

Lemma lookup_In (k : string) (v : toml) (d : dict) :
  Dict.lookup k d = Some v -> In (k, v) d.
Proof.
  induction d as [|[k' v'] d IH]; simpl; [done|].
  destruct (String.eqb_spec k' k) as [->|Hne]; [intros [= ->]; by left | auto].
Qed.

Lemma In_lookup (k : string) (v : toml) (d : dict) :
  List.NoDup (Dict.keys d) -> In (k, v) d -> Dict.lookup k d = Some v.
Proof.
  induction d as [|[k' v'] d IH]; simpl; [done|].
  intros Hnd [[= -> ->]|Hin].
  - by rewrite String.eqb_refl.
  - inversion_clear Hnd as [|? ? Hk Hd].
    destruct (String.eqb_spec k' k) as [->|Hne]; [|auto].
    destruct Hk. apply (in_map fst) in Hin. exact Hin.
Qed.

Lemma keys_set (k : string) (v : toml) (d : dict) :
  Dict.keys (Dict.set k v d) =
  if Dict.mem k d then Dict.keys d else Dict.keys d ++ [k].
Proof.
  unfold Dict.mem.
  induction d as [|[k' v'] d IH]; simpl; [done|].
  destruct (String.eqb_spec k' k) as [->|Hne]; simpl; [done|].
  rewrite IH. by destruct (Dict.lookup k d).
Qed.

Lemma NoDup_set (k : string) (v : toml) (d : dict) :
  List.NoDup (Dict.keys d) -> List.NoDup (Dict.keys (Dict.set k v d)).
Proof.
  intros Hnd. rewrite keys_set. unfold Dict.mem.
  destruct (Dict.lookup k d) eqn:E; [done|].
  apply lookup_None_keys in E.
  apply List.NoDup_app; repeat split; auto.
  - constructor; [simpl; tauto | constructor].
  - intros x Hx [<-|[]]. done.
Qed.

Lemma lookup_set_eq (k : string) (v : toml) (d : dict) :
  Dict.lookup k (Dict.set k v d) = Some v.
Proof.
  induction d as [|[k' v'] d IH]; simpl; [by rewrite String.eqb_refl|].
  destruct (String.eqb_spec k' k) as [->|Hne]; simpl.
  - by rewrite String.eqb_refl.
  - apply String.eqb_neq in Hne. by rewrite Hne.
Qed.

Lemma lookup_set_ne (k k' : string) (v : toml) (d : dict) :
  k <> k' -> Dict.lookup k' (Dict.set k v d) = Dict.lookup k' d.
Proof.
  intros Hne. induction d as [|[k0 v0] d IH]; simpl.
  - apply String.eqb_neq in Hne. by rewrite Hne.
  - destruct (String.eqb_spec k0 k) as [->|H0]; simpl.
    + apply String.eqb_neq in Hne. by rewrite Hne.
    + by rewrite IH.
Qed.

Lemma In_set_other (k k' : string) (v v' : toml) (d : dict) :
  k <> k' -> In (k', v') d -> In (k', v') (Dict.set k v d).
Proof.
  intros Hne. induction d as [|[k0 v0] d IH]; simpl; [done|].
  intros [[= -> ->]|Hin].
  - apply String.eqb_neq in Hne. rewrite String.eqb_sym, Hne. by left.
  - destruct (String.eqb k0 k); right; auto.
Qed.

Lemma In_set_inv (k k' : string) (v v' : toml) (d : dict) :
  In (k', v') (Dict.set k v d) -> In (k', v') d \/ (k', v') = (k, v).
Proof.
  induction d as [|[k0 v0] d IH]; simpl; [intros [<-|[]]; auto|].
  destruct (String.eqb_spec k0 k) as [->|H0]; simpl.
  - intros [<-|Hin]; auto.
  - intros [<-|Hin]; auto. destruct (IH Hin); auto.
Qed.

Lemma merge_cons (a b : dict) (e : string * toml) :
  Dict.merge a (e :: b) = Dict.merge (Dict.set (fst e) (snd e) a) b.
Proof. reflexivity. Qed.

Lemma NoDup_merge (a b : dict) :
  List.NoDup (Dict.keys a) -> List.NoDup (Dict.keys (Dict.merge a b)).
Proof.
  revert a. induction b as [|e b IH]; intros a Hnd; [done|].
  rewrite merge_cons. apply IH. by apply NoDup_set.
Qed.

(** The last writer wins. *)
Lemma lookup_merge (k : string) (a b : dict) :
  List.NoDup (Dict.keys b) ->
  Dict.lookup k (Dict.merge a b) =
  match Dict.lookup k b with
  | Some v => Some v
  | None => Dict.lookup k a
  end.
Proof.
  revert a. induction b as [|[k1 v1] b IH]; intros a Hnd; [done|].
  inversion_clear Hnd as [|? ? Hk Hb].
  rewrite merge_cons, (IH _ Hb). simpl.
  destruct (String.eqb_spec k1 k) as [->|Hne].
  - apply lookup_None_keys in Hk. rewrite Hk. apply lookup_set_eq.
  - by rewrite lookup_set_ne.
Qed.

Lemma In_merge_left (k : string) (v : toml) (a b : dict) :
  In (k, v) a -> Dict.mem k b = false -> In (k, v) (Dict.merge a b).
Proof.
  unfold Dict.mem. revert a.
  induction b as [|[k1 v1] b IH]; intros a Hin Hb; [done|].
  rewrite merge_cons. simpl in *.
  destruct (String.eqb_spec k1 k) as [->|Hne]; [discriminate|].
  apply IH; [|done]. by apply In_set_other.
Qed.

Lemma In_merge_inv (k : string) (v : toml) (a b : dict) :
  In (k, v) (Dict.merge a b) -> In (k, v) a \/ In (k, v) b.
Proof.
  revert a. induction b as [|[k1 v1] b IH]; intros a Hin; [by left|].
  rewrite merge_cons in Hin. destruct (IH _ Hin) as [H|H].
  - destruct (In_set_inv _ _ _ _ _ H) as [?|[= -> ->]]; [by left|].
    right. by left.
  - right. by right.
Qed.

Lemma mem_merge_left (k : string) (a b : dict) :
  Dict.mem k a = true -> Dict.mem k (Dict.merge a b) = true.
Proof.
  revert a. induction b as [|[k1 v1] b IH]; intros a Ha; [done|].
  rewrite merge_cons. apply IH. unfold Dict.mem in *. simpl.
  destruct (String.eqb_spec k1 k) as [->|Hne].
  - by rewrite lookup_set_eq.
  - by rewrite lookup_set_ne.
Qed.

Lemma In_del (k k' : string) (v : toml) (d : dict) :
  In (k', v) (Dict.del k d) <-> In (k', v) d /\ k' <> k.
Proof.
  induction d as [|[k0 v0] d IH]; simpl; [tauto|].
  destruct (String.eqb_spec k0 k) as [->|H0]; simpl; rewrite IH.
  - split; [tauto|]. intros [[[= -> ->]|?] ?]; tauto.
  - split; [|tauto]. intros [[= -> ->]|?]; tauto.
Qed.

Lemma keys_del_sub (k x : string) (d : dict) :
  In x (Dict.keys (Dict.del k d)) -> In x (Dict.keys d).
Proof.
  induction d as [|[k0 v0] d IH]; simpl; [done|].
  destruct (String.eqb k0 k); simpl; tauto.
Qed.

Lemma NoDup_del (k : string) (d : dict) :
  List.NoDup (Dict.keys d) -> List.NoDup (Dict.keys (Dict.del k d)).
Proof.
  induction d as [|[k0 v0] d IH]; simpl; [done|].
  intros Hnd. inversion_clear Hnd as [|? ? Hk Hd].
  destruct (String.eqb k0 k); simpl; [auto|].
  constructor; [|auto]. intros Hin. apply Hk. by apply keys_del_sub in Hin.
Qed.

Lemma mem_del (k : string) (d : dict) : Dict.mem k (Dict.del k d) = false.
Proof.
  unfold Dict.mem.
  induction d as [|[k0 v0] d IH]; simpl; [done|].
  destruct (String.eqb k0 k) eqn:E; simpl; [done|]. by rewrite E.
Qed.

Lemma mem_In (k : string) (v : toml) (d : dict) :
  In (k, v) d -> Dict.mem k d = true.
Proof.
  intros Hin. unfold Dict.mem.
  destruct (Dict.lookup k d) eqn:E; [done|].
  apply lookup_None_keys in E. destruct E.
  apply (in_map fst) in Hin. exact Hin.
Qed.

End DictFacts.

Module MoreDict.

Lemma mem_set (k k' : string) (v : toml) (d : dict) :
  Dict.mem k' (Dict.set k v d) = if String.eqb k k' then true else Dict.mem k' d.
Proof.
  unfold Dict.mem. destruct (String.eqb_spec k k') as [->|Hne].
  - by rewrite DictFacts.lookup_set_eq.
  - by rewrite DictFacts.lookup_set_ne.
Qed.

Lemma del_absent (k : string) (d : dict) :
  Dict.mem k d = false -> Dict.del k d = d.
Proof.
  unfold Dict.mem. induction d as [|[k0 v0] d IH]; simpl; [done|].
  destruct (String.eqb k0 k); [done|]. intros H. by rewrite IH.
Qed.

Lemma keys_merge (a b : dict) :
  List.NoDup (Dict.keys b) ->
  Dict.keys (Dict.merge a b) = Dict.keys a ++ new_keys a b.
Proof.
  unfold new_keys. revert a.
  induction b as [|[k1 v1] b IH]; intros a Hnd; [by rewrite app_nil_r|].
  inversion_clear Hnd as [|? ? Hk Hb].
  rewrite DictFacts.merge_cons, (IH _ Hb). cbn [fst snd Dict.keys map List.filter].
  assert (Hf : List.filter (fun k => negb (Dict.mem k (Dict.set k1 v1 a))) (Dict.keys b) =
               List.filter (fun k => negb (Dict.mem k a)) (Dict.keys b)).
  { apply List.filter_ext_in. intros k Hin. rewrite mem_set.
    destruct (String.eqb_spec k1 k) as [->|_]; [by destruct Hk | done]. }
  fold (Dict.keys b). rewrite Hf, DictFacts.keys_set.
  destruct (Dict.mem k1 a); cbn [negb]; [done|]. by rewrite <- app_assoc.
Qed.

End MoreDict.

Module SpecFacts.

(** Two dictionaries with the same keys in the same order and the same
    value at every key are the same. *)
Lemma dict_ext (d1 d2 : dict) :
  List.NoDup (Dict.keys d1) ->
  Dict.keys d1 = Dict.keys d2 ->
  (forall k, Dict.lookup k d1 = Dict.lookup k d2) ->
  d1 = d2.
Proof.
  revert d2. induction d1 as [|[k1 v1] d1 IH]; intros [|[k2 v2] d2]; simpl;
    try discriminate; [done|].
  intros Hnd [= -> Hk] Hl. inversion_clear Hnd as [|? ? Hk1 Hd1].
  pose proof (Hl k2) as H0. rewrite String.eqb_refl in H0. injection H0 as ->.
  f_equal. apply IH; [done | done |].
  intros k. specialize (Hl k).
  destruct (String.eqb_spec k2 k) as [->|_]; [|done].
  transitivity (@None toml); [|symmetry];
    apply DictFacts.lookup_None_keys; [done | by rewrite <- Hk].
Qed.

Lemma lookup_app (k : string) (a b : dict) :
  Dict.lookup k (a ++ b) =
  match Dict.lookup k a with
  | Some v => Some v
  | None => Dict.lookup k b
  end.
Proof.
  induction a as [|[k0 v0] a IH]; simpl; [done|].
  by destruct (String.eqb k0 k).
Qed.

Lemma keys_merged_spec (a b : dict) :
  Dict.keys (merged_spec a b) = Dict.keys a ++ new_keys a b.
Proof.
  unfold merged_spec, new_keys, Dict.keys. rewrite map_app, map_map. f_equal.
  induction b as [|[k v] b IH]; simpl; [done|].
  destruct (Dict.mem k a); simpl; by rewrite IH.
Qed.

Lemma lookup_merged_spec (k : string) (a b : dict) :
  Dict.lookup k (merged_spec a b) =
  match Dict.lookup k b with
  | Some v => Some v
  | None => Dict.lookup k a
  end.
Proof.
  unfold merged_spec. rewrite lookup_app.
  assert (Ha : Dict.lookup k
      (map (fun e => (fst e, match Dict.lookup (fst e) b with
                             | Some v => v
                             | None => snd e
                             end)) a) =
    match Dict.lookup k a with
    | Some v => Some (match Dict.lookup k b with Some v' => v' | None => v end)
    | None => None
    end).
  { induction a as [|[k0 v0] a IH]; simpl; [done|].
    destruct (String.eqb_spec k0 k) as [->|_]; [done | exact IH]. }
  rewrite Ha. destruct (Dict.lookup k a) as [v|] eqn:E.
  - by destruct (Dict.lookup k b).
  - assert (Hm : Dict.mem k a = false) by (unfold Dict.mem; by rewrite E).
    clear Ha E. induction b as [|[k0 v0] b IH]; simpl; [done|].
    destruct (String.eqb_spec k0 k) as [->|Hne].
    + rewrite Hm. simpl. by rewrite String.eqb_refl.
    + destruct (Dict.mem k0 a); simpl; [done|].
      apply String.eqb_neq in Hne. by rewrite Hne.
Qed.

(** [{**a, **b}] is development over runtime. *)
Lemma merge_is_spec (a b : dict) :
  List.NoDup (Dict.keys a) ->
  List.NoDup (Dict.keys b) ->
  Dict.merge a b = merged_spec a b.
Proof.
  intros Ha Hb. apply dict_ext.
  - by apply DictFacts.NoDup_merge.
  - by rewrite MoreDict.keys_merge, keys_merged_spec.
  - intros k. by rewrite DictFacts.lookup_merge, lookup_merged_spec.
Qed.

Lemma del_python (d : dict) : Dict.del "python" d = without_python d.
Proof.
  unfold without_python. induction d as [|[k v] d IH]; simpl; [done|].
  destruct (String.eqb k "python"); simpl; by rewrite IH.
Qed.

(** Lines 136-141 compute what the specification describes. *)
Lemma merged_dependencies_spec (deps dev : dict) :
  List.NoDup (Dict.keys deps) ->
  List.NoDup (Dict.keys dev) ->
  merged_dependencies (TTable deps) (TTable dev) =
  inr (merged_spec (without_python deps) dev).
Proof.
  intros Hd Hv. unfold merged_dependencies. f_equal.
  rewrite <- del_python.
  destruct (Dict.mem "python" deps) eqn:E.
  - apply merge_is_spec; [by apply DictFacts.NoDup_del | done].
  - rewrite (MoreDict.del_absent _ _ E). by apply merge_is_spec.
Qed.

Lemma In_without_python (k : string) (v : toml) (d : dict) :
  In (k, v) (without_python d) <-> In (k, v) d /\ k <> "python".
Proof.
  unfold without_python. rewrite List.filter_In. simpl.
  rewrite negb_true_iff, String.eqb_neq. tauto.
Qed.

(** Where an entry of the merged dictionary comes from. *)
Lemma In_merged_spec (k : string) (v : toml) (a b : dict) :
  In (k, v) (merged_spec a b) ->
  (In (k, v) a /\ Dict.lookup k b = None) \/ In (k, v) b.
Proof.
  unfold merged_spec. rewrite in_app_iff, in_map_iff, List.filter_In.
  intros [([k0 v0] & [= <- <-] & Hin)|[Hin _]]; [|by right]. simpl in *.
  destruct (Dict.lookup k0 b) as [v'|] eqn:E.
  - right. by apply DictFacts.lookup_In.
  - by left.
Qed.

Lemma In_merged_spec_runtime (k : string) (v : toml) (a b : dict) :
  In (k, v) a -> Dict.mem k b = false -> In (k, v) (merged_spec a b).
Proof.
  intros Hin Hb. unfold merged_spec. rewrite in_app_iff, in_map_iff. left.
  exists (k, v). split; [|done]. simpl. unfold Dict.mem in Hb.
  by destruct (Dict.lookup k b).
Qed.

End SpecFacts.

(* ===================================================================== *)
(** ** Stepping through the module *)
(* ===================================================================== *)

Module Steps.

Lemma bind_ok {A B} (m : M A) (f : A -> M B) (w w' : World) (a : A) :
  m w = Ok a w' -> (m ≫= f) w = f a w'.
Proof. intros H. unfold mbind, M_bind. by rewrite H. Qed.

Lemma bind_raise {A B} (m : M A) (f : A -> M B) (w w' : World) (e : Exn) :
  m w = Raise e w' -> (m ≫= f) w = Raise e w'.
Proof. intros H. unfold mbind, M_bind. by rewrite H. Qed.

Lemma pip_of_join (h : Host) (pd : Path) :
  (if String.eqb (sys_platform h) "win32"
   then os_path_join (os_path_join pd [".venv"]) ["Scripts"; "pip"]
   else os_path_join (os_path_join pd [".venv"]) ["bin"; "pip"]) = pip_of h pd.
Proof.
  unfold pip_of, os_path_join.
  destruct (String.eqb _ _); by rewrite <- app_assoc.
Qed.

Lemma get_pip_exe_ok (h : Host) (pd : Path) (w : World) :
  get_pip_exe h (os_path_join pd [".venv"]) w = Ok (pip_of h pd) w.
Proof. unfold get_pip_exe. by rewrite pip_of_join. Qed.

(** The directory in which the installer is looked for. *)
Lemma pip_dir (h : Host) (pd : Path) :
  exists d, removelast (pip_of h pd) = pd ++ ".venv" :: [d].
Proof.
  unfold pip_of. destruct (String.eqb _ _);
    [exists "Scripts" | exists "bin"];
    change (pd ++ [".venv"; ?d; "pip"]) with (pd ++ [".venv"] ++ [d; "pip"]);
    by rewrite app_assoc, FsFacts.removelast_snoc, <- app_assoc.
Qed.

(** Without an environment directory no installer process can start. *)
Lemma pip_cannot_start (h : Host) (pd : Path) (args : list string) (cap : bool) (w : World) :
  Fs.is_dir pd (fs w) = true ->
  Fs.exists_ (pd ++ [".venv"]) (fs w) = false ->
  subprocess_run h (pip h pd args cap) w = Raise FileNotFoundError w.
Proof.
  intros Hd Hv. unfold subprocess_run, pip, launch_error.
  destruct (pip_dir h pd) as [d ->].
  by rewrite (FsFacts.missing_below_dir pd ".venv" (fs w) Hd Hv [d]).
Qed.

(** Where the environment directory resolves, the launch check looks at
    nothing else. *)
Lemma launch_error_env (h : Host) (pd : Path) (args : list string) (cap : bool) (n n' : node) :
  Fs.stat (pd ++ [".venv"]) n' = Fs.stat (pd ++ [".venv"]) n ->
  launch_error (pip h pd args cap) n' = launch_error (pip h pd args cap) n.
Proof.
  intros H. unfold pip, launch_error.
  destruct (pip_dir h pd) as [d ->].
  replace (pd ++ [".venv"; d]) with ((pd ++ [".venv"]) ++ [d])
    by (by rewrite <- app_assoc).
  by rewrite (FsFacts.stat_app (pd ++ [".venv"]) [d] n'),
             (FsFacts.stat_app (pd ++ [".venv"]) [d] n), H.
Qed.

Lemma update_requirements_unfold (h : Host) (pd : Path) (w : World) :
  update_requirements h pd w =
  match subprocess_run h (freeze_proc h pd) w with
  | Ok r w' => open_write (manifest_path pd) (proc_stdout r) w'
  | Raise e w' => Raise e w'
  end.
Proof.
  unfold update_requirements.
  rewrite (bind_ok _ _ _ _ _ (get_pip_exe_ok h pd w)).
  reflexivity.
Qed.

Lemma install_package_unfold (h : Host) (pd : Path) (P : string) (w : World) :
  install_package h pd P w =
  match subprocess_run h (pip h pd ["install"; P] false) w with
  | Ok _ w' =>
      match update_requirements h pd w' with
      | Ok _ w'' => Ok tt (emit (EvPrint ("Installed package: " +:+ P)) w'')
      | Raise e w'' => Raise e w''
      end
  | Raise e w' => Raise e w'
  end.
Proof.
  unfold install_package.
  rewrite (bind_ok _ _ _ _ _ (get_pip_exe_ok h pd w)).
  reflexivity.
Qed.

Lemma uninstall_package_unfold (h : Host) (pd : Path) (P : string) (w : World) :
  uninstall_package h pd P w =
  match subprocess_run h (pip h pd ["uninstall"; "-y"; P] false) w with
  | Ok _ w' =>
      match update_requirements h pd w' with
      | Ok _ w'' => Ok tt (emit (EvPrint ("Uninstalled package: " +:+ P)) w'')
      | Raise e w'' => Raise e w''
      end
  | Raise e w' => Raise e w'
  end.
Proof.
  unfold uninstall_package.
  rewrite (bind_ok _ _ _ _ _ (get_pip_exe_ok h pd w)).
  reflexivity.
Qed.

End Steps.

(* ===================================================================== *)
(** ** Operations that need an environment *)
(* ===================================================================== *)

(** C1. In a project directory whose environment [.venv] does not exist,
    each of List, RunInEnvironment, Install and Uninstall reports that it
    is missing and leaves the files alone, [requirements.txt] included:
    [list_packages] and [run_in_venv] print the module's message and
    return; [install_package] and [uninstall_package] stop on the
    [FileNotFoundError] of the installer that cannot be started, before
    the resync. *)
Theorem no_environment_is_reported (h : Host) (pd : Path) (w : World) (op : EnvOp) :
  Fs.is_dir pd (fs w) = true ->
  Fs.exists_ (pd ++ [".venv"]) (fs w) = false ->
  reports_not_found w (perform h pd op w) /\
  perform h pd op w =
    match op with
    | OpList | OpRun _ => Ok tt (emit (EvPrint no_venv_message) w)
    | OpInstall _ | OpUninstall _ => Raise FileNotFoundError w
    end /\
  fs (world_of (perform h pd op w)) = fs w /\
  Fs.stat (manifest_path pd) (fs (world_of (perform h pd op w))) =
    Fs.stat (manifest_path pd) (fs w).
Proof.
  intros Hd Hv.
  assert (E : perform h pd op w =
    match op with
    | OpList | OpRun _ => Ok tt (emit (EvPrint no_venv_message) w)
    | OpInstall _ | OpUninstall _ => Raise FileNotFoundError w
    end).
  { destruct op as [|cmds|P|P]; simpl.
    - unfold list_packages, os_path_exists, os_path_join, mbind, M_bind.
      by rewrite Hv.
    - unfold run_in_venv, os_path_exists, os_path_join, mbind, M_bind.
      by rewrite Hv.
    - rewrite Steps.install_package_unfold.
      by rewrite (Steps.pip_cannot_start h pd _ _ w Hd Hv).
    - rewrite Steps.uninstall_package_unfold.
      by rewrite (Steps.pip_cannot_start h pd _ _ w Hd Hv). }
  rewrite E. unfold reports_not_found.
  destruct op; simpl; auto.
Qed.

Lemma no_environment_is_reported_witness :
  Fs.is_dir ["proj"] (fs (Demo.world Demo.bare)) = true /\
  Fs.exists_ (["proj"] ++ [".venv"]) (fs (Demo.world Demo.bare)) = false /\
  install_package Demo.linux ["proj"] "requests" (Demo.world Demo.bare) =
    Raise FileNotFoundError (Demo.world Demo.bare).
Proof.
  split; [reflexivity|]. split; [reflexivity|].
  exact (proj1 (proj2 (no_environment_is_reported Demo.linux ["proj"]
                         (Demo.world Demo.bare) (OpInstall "requests")
                         eq_refl eq_refl))).
Defined.

(** C8, as amended.  On a host that is neither POSIX nor Windows
    [run_in_venv] starts no process, whatever the command words: it prints
    the unsupported-OS error when the environment directory exists, and
    the missing-environment error when it does not. *)
Theorem run_on_other_os (h : Host) (pd : Path) (commands : list string) (w : World) :
  os_name h <> "posix" ->
  os_name h <> "nt" ->
  run_in_venv h pd commands w =
    Ok tt (emit (EvPrint (if Fs.exists_ (pd ++ [".venv"]) (fs w)
                          then "Error: Unsupported OS."
                          else no_venv_message)) w) /\
  filter is_spawn (trace (world_of (run_in_venv h pd commands w))) =
    filter is_spawn (trace w) /\
  fs (world_of (run_in_venv h pd commands w)) = fs w.
Proof.
  intros Hp Hn.
  assert (E : run_in_venv h pd commands w =
    Ok tt (emit (EvPrint (if Fs.exists_ (pd ++ [".venv"]) (fs w)
                          then "Error: Unsupported OS."
                          else no_venv_message)) w)).
  { unfold run_in_venv, os_path_exists, os_path_join, mbind, M_bind.
    destruct (Fs.exists_ (pd ++ [".venv"]) (fs w)); simpl; [|done].
    apply String.eqb_neq in Hp, Hn. by rewrite Hp, Hn. }
  rewrite E. split; [done|]. split; [|done].
  simpl. rewrite filter_app. simpl. by rewrite app_nil_r.
Qed.

Lemma run_on_other_os_witness :
  os_name Demo.jython <> "posix" /\
  os_name Demo.jython <> "nt" /\
  run_in_venv Demo.jython ["proj"] ["python"; "x.py"] (Demo.world Demo.with_env) =
    Ok tt (emit (EvPrint "Error: Unsupported OS.") (Demo.world Demo.with_env)).
Proof.
  split; [discriminate|]. split; [discriminate|].
  exact (proj1 (run_on_other_os Demo.jython ["proj"] ["python"; "x.py"]
                  (Demo.world Demo.with_env)
                  ltac:(discriminate) ltac:(discriminate))).
Defined.

(** C8, as stated, fails where the environment is missing: on such a host
    the run ends on the missing-environment message and the unsupported-OS
    error is never printed. *)
Lemma run_without_env_on_other_os :
  os_name Demo.jython <> "posix" /\
  os_name Demo.jython <> "nt" /\
  run_in_venv Demo.jython ["proj"] ["python"] (Demo.world Demo.bare) =
    Ok tt (emit (EvPrint no_venv_message) (Demo.world Demo.bare)) /\
  ~ In (EvPrint "Error: Unsupported OS.")
       (trace (world_of (run_in_venv Demo.jython ["proj"] ["python"]
                           (Demo.world Demo.bare)))).
Proof.
  split; [discriminate|]. split; [discriminate|]. split; [reflexivity|].
  simpl. intros [H|[]]. discriminate H.
Qed.

(* ===================================================================== *)
(** ** Locating the installer *)
(* ===================================================================== *)

(** C7. [get_pip_exe] is a function of the environment directory and of
    [sys.platform] alone: on hosts with the same platform it returns the
    same path in any two worlds, whatever their files, and touches
    neither. *)
Theorem get_pip_exe_pure (h1 h2 : Host) (venv_dir : Path) (w1 w2 : World) :
  sys_platform h1 = sys_platform h2 ->
  exists p : Path,
    get_pip_exe h1 venv_dir w1 = Ok p w1 /\
    get_pip_exe h2 venv_dir w2 = Ok p w2 /\
    p = if String.eqb (sys_platform h1) "win32"
        then venv_dir ++ ["Scripts"; "pip"]
        else venv_dir ++ ["bin"; "pip"].
Proof.
  intros E. eexists. unfold get_pip_exe, os_path_join. rewrite <- E.
  repeat split.
Qed.

Lemma get_pip_exe_pure_witness :
  sys_platform Demo.linux = sys_platform (Demo.host "java" "linux") /\
  exists p : Path,
    get_pip_exe Demo.linux ["proj"; ".venv"] (Demo.world Demo.bare) =
      Ok p (Demo.world Demo.bare) /\
    get_pip_exe (Demo.host "java" "linux") ["proj"; ".venv"] (Demo.world Demo.initialised) =
      Ok p (Demo.world Demo.initialised) /\
    p = ["proj"; ".venv"; "bin"; "pip"].
Proof.
  split; [reflexivity|].
  exact (get_pip_exe_pure Demo.linux (Demo.host "java" "linux") ["proj"; ".venv"]
           (Demo.world Demo.bare) (Demo.world Demo.initialised) eq_refl).
Defined.

(* ===================================================================== *)
(** ** The configuration *)
(* ===================================================================== *)

(** C5. Where [.noetry.yml] already exists, [init_project] returns without
    touching it: two calls in a row both answer "already exists", leave
    every file as it was (so the configuration after the second call is
    the one after the first), and create no environment. *)
Theorem init_project_keeps_config (h : Host) (pd : Path) (w : World) :
  Fs.exists_ (config_path pd) (fs w) = true ->
  exists w1 w2 : World,
    init_project h pd w = Ok tt w1 /\
    init_project h pd w1 = Ok tt w2 /\
    fs w1 = fs w /\
    fs w2 = fs w1 /\
    Fs.read (config_path pd) (fs w2) = Fs.read (config_path pd) (fs w1) /\
    trace w1 = trace w ++ [EvPrint ".noetry.yml already exists."] /\
    trace w2 = trace w1 ++ [EvPrint ".noetry.yml already exists."].
Proof.
  intros Hc.
  assert (E : forall w', fs w' = fs w ->
    init_project h pd w' = Ok tt (emit (EvPrint ".noetry.yml already exists.") w')).
  { intros w' Hw. unfold init_project, os_path_exists, mbind, M_bind.
    fold (config_path pd). by rewrite Hw, Hc. }
  exists (emit (EvPrint ".noetry.yml already exists.") w),
         (emit (EvPrint ".noetry.yml already exists.")
            (emit (EvPrint ".noetry.yml already exists.") w)).
  rewrite !E; done.
Qed.

Lemma init_project_keeps_config_witness :
  Fs.exists_ (config_path ["proj"]) (fs (Demo.world Demo.initialised)) = true /\
  exists w1 w2 : World,
    init_project Demo.linux ["proj"] (Demo.world Demo.initialised) = Ok tt w1 /\
    init_project Demo.linux ["proj"] w1 = Ok tt w2 /\
    fs w1 = fs (Demo.world Demo.initialised) /\
    fs w2 = fs w1 /\
    Fs.read (config_path ["proj"]) (fs w2) = Fs.read (config_path ["proj"]) (fs w1) /\
    trace w1 = trace (Demo.world Demo.initialised) ++ [EvPrint ".noetry.yml already exists."] /\
    trace w2 = trace w1 ++ [EvPrint ".noetry.yml already exists."].
Proof.
  split; [reflexivity|].
  exact (init_project_keeps_config Demo.linux ["proj"] (Demo.world Demo.initialised) eq_refl).
Defined.

(* ===================================================================== *)
(** ** The dispatcher *)
(* ===================================================================== *)

(** C9. [set-python] reaches no implementation.  With a version argument
    the dispatcher stops on the unbound name [set_python_version]; without
    one it asks for a version; and where the working directory is gone it
    stops before either, on the [FileNotFoundError] of [os.getcwd].  In
    every case no file changes, so the interpreter version in
    [.noetry.yml] is never updated, and nothing is spawned or created. *)
Theorem set_python_is_a_stub (h : Host) (prog : string) (args : list string) (w : World) :
  main h (prog :: "set-python" :: args) w =
    (if Fs.is_dir (getcwd h) (fs w)
     then match args with
          | _ :: _ => Raise (NameError "set_python_version") w
          | [] => Ok tt (emit (EvPrint "Please specify a Python version.") w)
          end
     else Raise FileNotFoundError w) /\
  fs (world_of (main h (prog :: "set-python" :: args) w)) = fs w /\
  Fs.read (config_path (getcwd h)) (fs (world_of (main h (prog :: "set-python" :: args) w))) =
    Fs.read (config_path (getcwd h)) (fs w).
Proof.
  assert (E : main h (prog :: "set-python" :: args) w =
    (if Fs.is_dir (getcwd h) (fs w)
     then match args with
          | _ :: _ => Raise (NameError "set_python_version") w
          | [] => Ok tt (emit (EvPrint "Please specify a Python version.") w)
          end
     else Raise FileNotFoundError w)).
  { unfold main, os_getcwd, mbind, M_bind.
    destruct (Fs.is_dir (getcwd h) (fs w)); [|done]. by destruct args. }
  rewrite E. destruct (Fs.is_dir (getcwd h) (fs w)); [|done]. by destruct args.
Qed.

(** The three ways in which [set-python] ends, on the small host. *)
Example set_python_examples :
  main Demo.linux ["noetry"; "set-python"; "3.12"] (Demo.world Demo.initialised) =
    Raise (NameError "set_python_version") (Demo.world Demo.initialised) /\
  main Demo.linux ["noetry"; "set-python"] (Demo.world Demo.initialised) =
    Ok tt (emit (EvPrint "Please specify a Python version.") (Demo.world Demo.initialised)) /\
  main Demo.linux ["noetry"; "set-python"; "3.12"] (Demo.world (Dir ∅)) =
    Raise FileNotFoundError (Demo.world (Dir ∅)).
Proof. repeat split; reflexivity. Qed.

(* ===================================================================== *)
(** ** Resynchronising the manifest *)
(* ===================================================================== *)

Module DemoFacts.

Lemma installed_db_env (o p : string) (pd : Path) :
  Demo.installed_db (pip_of (Demo.host o p) pd) = pd ++ [".venv"] ++ ["installed"].
Proof.
  unfold Demo.installed_db.
  destruct (Steps.pip_dir (Demo.host o p) pd) as [d ->].
  rewrite FsFacts.removelast_snoc. by rewrite <- app_assoc.
Qed.




Lemma demo_freeze_is_query (o p : string) : freeze_is_query (Demo.host o p).
Proof.
  intros pd n r Hf. simpl in Hf. injection Hf as <-. split; [done|].
  intros n' Hn. eexists. split; [reflexivity|]. simpl.
  unfold Demo.frozen, Fs.read. rewrite installed_db_env, app_assoc.
  by rewrite (FsFacts.stat_app (pd ++ [".venv"]) ["installed"] n'),
             (FsFacts.stat_app (pd ++ [".venv"]) ["installed"] n), Hn.
Qed.

End DemoFacts.

Lemma manifest_write_keeps_env (pd : Path) (c : string) (n n' : node) :
  Fs.write (manifest_path pd) c n = inr n' ->
  Fs.stat (pd ++ [".venv"]) n' = Fs.stat (pd ++ [".venv"]) n.
Proof.
  intros W. by apply (FsFacts.write_frame pd "requirements.txt" ".venv" [] [] c).
Qed.

(** C10, as amended.  Every call of [update_requirements] whose freeze
    invocation was started and has returned, whatever its exit status, in
    a project directory where [requirements.txt] is not a directory,
    replaces the manifest by exactly what was captured from the
    invocation; a failed enumeration that printed nothing leaves an empty
    manifest behind. *)
Theorem resync_writes_freeze_output
    (h : Host) (pd : Path) (w w1 : World) (r : Completed) :
  subprocess_run h (freeze_proc h pd) w = Ok r w1 ->
  Fs.is_dir pd (fs w1) = true ->
  Fs.is_dir (manifest_path pd) (fs w1) = false ->
  exists w2 : World,
    update_requirements h pd w = Ok tt w2 /\
    Fs.read (manifest_path pd) (fs w2) = inr (proc_stdout r) /\
    trace w2 = trace w1 ++ [EvWrite (manifest_path pd) (proc_stdout r)] /\
    (returncode r <> 0%Z -> proc_stdout r = "" ->
     Fs.read (manifest_path pd) (fs w2) = inr "").
Proof.
  intros Hrun Hd Hm.
  destruct (FsFacts.write_in_dir pd "requirements.txt" (proc_stdout r) (fs w1) Hd Hm)
    as [n' W].
  change (pd ++ ["requirements.txt"]) with (manifest_path pd) in W.
  rewrite Steps.update_requirements_unfold, Hrun.
  unfold open_write. rewrite W. eexists. split; [reflexivity|]. simpl.
  pose proof (FsFacts.write_read _ _ _ _ W) as R.
  repeat split; [done|]. by intros _ <-.
Qed.

Lemma resync_writes_freeze_output_witness :
  let w := Demo.world Demo.with_manifest in
  let r := mkCompleted Demo.with_manifest "" 1 in
  let w1 := {| fs := Demo.with_manifest;
               trace := [EvSpawn (freeze_proc Demo.broken ["proj"])] |} in
  subprocess_run Demo.broken (freeze_proc Demo.broken ["proj"]) w = Ok r w1 /\
  Fs.is_dir ["proj"] (fs w1) = true /\
  Fs.is_dir (manifest_path ["proj"]) (fs w1) = false /\
  Fs.read (manifest_path ["proj"]) (fs w) = inr Demo.pinned /\
  exists w2 : World,
    update_requirements Demo.broken ["proj"] w = Ok tt w2 /\
    Fs.read (manifest_path ["proj"]) (fs w2) = inr (proc_stdout r) /\
    trace w2 = trace w1 ++ [EvWrite (manifest_path ["proj"]) (proc_stdout r)] /\
    (returncode r <> 0%Z -> proc_stdout r = "" ->
     Fs.read (manifest_path ["proj"]) (fs w2) = inr "").
Proof.
  intros w r w1.
  split; [reflexivity|]. split; [reflexivity|]. split; [reflexivity|].
  split; [reflexivity|].
  exact (resync_writes_freeze_output Demo.broken ["proj"] w w1 r
           eq_refl eq_refl eq_refl).
Defined.


(** C10, as stated, fails for the calls whose freeze invocation cannot be
    started: without an environment the call raises and the manifest is
    not overwritten, it stays as it was. *)
Lemma resync_without_installer :
  Fs.read (manifest_path ["proj"]) (fs (Demo.world Demo.manifest_only)) = inr Demo.pinned /\
  update_requirements Demo.linux ["proj"] (Demo.world Demo.manifest_only) =
    Raise FileNotFoundError (Demo.world Demo.manifest_only) /\
  Fs.read (manifest_path ["proj"])
    (fs (world_of (update_requirements Demo.linux ["proj"] (Demo.world Demo.manifest_only)))) =
    inr Demo.pinned /\
  ~ (exists c, In (EvWrite (manifest_path ["proj"]) c)
                  (trace (world_of (update_requirements Demo.linux ["proj"]
                                      (Demo.world Demo.manifest_only))))).
Proof.
  split; [reflexivity|]. split; [reflexivity|]. split; [reflexivity|].
  intros [c []].
Qed.

(** Nor is anything overwritten where a directory sits in the manifest's
    place: the freeze runs, and the write raises. *)
Example resync_onto_directory :
  update_requirements Demo.linux ["proj"] (Demo.world Demo.manifest_is_directory) =
    Raise IsADirectoryError
      {| fs := Demo.manifest_is_directory;
         trace := [EvSpawn (freeze_proc Demo.linux ["proj"])] |}.
Proof. reflexivity. Qed.

(** The resync, case by case. *)
Lemma update_requirements_cases (h : Host) (pd : Path) (w : World) :
  (exists e, update_requirements h pd w = Raise e w) \/
  (exists r,
     launch_error (freeze_proc h pd) (fs w) = None /\
     run_program h (freeze_proc h pd) (fs w) = inr r /\
     let w' := {| fs := proc_fs r; trace := trace w ++ [EvSpawn (freeze_proc h pd)] |} in
     ((exists e, Fs.write (manifest_path pd) (proc_stdout r) (proc_fs r) = inl e /\
                 update_requirements h pd w = Raise e w') \/
      (exists n', Fs.write (manifest_path pd) (proc_stdout r) (proc_fs r) = inr n' /\
                  update_requirements h pd w =
                    Ok tt {| fs := n';
                             trace := trace w' ++ [EvWrite (manifest_path pd) (proc_stdout r)] |}))).
Proof.
  rewrite Steps.update_requirements_unfold. unfold subprocess_run, open_write.
  destruct (launch_error (freeze_proc h pd) (fs w)) as [e|]; [left; eauto|].
  destruct (run_program h (freeze_proc h pd) (fs w)) as [e|r]; [left; eauto|].
  right. exists r. split; [done|]. split; [done|]. simpl.
  destruct (Fs.write (manifest_path pd) (proc_stdout r) (proc_fs r)) as [e|n'];
    [left | right]; eauto.
Qed.

(** C6. [update_requirements] is idempotent when nothing touches the
    environment in between: a second call straight after the first leaves
    every file, and so the manifest, byte for byte as the first call left
    it; and when the first call returns, so does the second, having written
    the same content. *)
Theorem resync_idempotent (h : Host) (pd : Path) (w : World) :
  freeze_is_query h ->
  fs (world_of (update_requirements h pd (world_of (update_requirements h pd w)))) =
    fs (world_of (update_requirements h pd w)) /\
  forall w1 : World,
    update_requirements h pd w = Ok tt w1 ->
    exists (c : string) (w2 : World),
      update_requirements h pd w1 = Ok tt w2 /\
      Fs.read (manifest_path pd) (fs w1) = inr c /\
      Fs.read (manifest_path pd) (fs w2) = inr c /\
      trace w1 = trace w ++ [EvSpawn (freeze_proc h pd); EvWrite (manifest_path pd) c] /\
      trace w2 = trace w1 ++ [EvSpawn (freeze_proc h pd); EvWrite (manifest_path pd) c].
Proof.
  intros Q.
  destruct (update_requirements_cases h pd w) as [[e E]|(r & L & R & [(e & W & E)|(n' & W & E)])].
  - rewrite E. simpl. rewrite E. split; [done|]. discriminate.
  - destruct (Q pd (fs w) r R) as [Hfs _].
    rewrite E. cbn [world_of]. split; [|discriminate].
    rewrite Steps.update_requirements_unfold. unfold subprocess_run, open_write.
    cbn [fs trace]. rewrite Hfs, L, R. cbn [fs trace]. by rewrite W.
  - destruct (Q pd (fs w) r R) as [Hfs Hout].
    rewrite Hfs in W.
    pose proof (manifest_write_keeps_env pd _ _ _ W) as Henv.
    destruct (Hout n' Henv) as (r' & R' & Hsame).
    destruct (Q pd n' r' R') as [Hfs' _].
    assert (E2 : update_requirements h pd
                   {| fs := n';
                      trace := (trace w ++ [EvSpawn (freeze_proc h pd)]) ++
                               [EvWrite (manifest_path pd) (proc_stdout r)] |} =
                 Ok tt {| fs := n';
                          trace := (((trace w ++ [EvSpawn (freeze_proc h pd)]) ++
                                    [EvWrite (manifest_path pd) (proc_stdout r)]) ++
                                    [EvSpawn (freeze_proc h pd)]) ++
                                    [EvWrite (manifest_path pd) (proc_stdout r)] |}).
    { rewrite Steps.update_requirements_unfold. unfold subprocess_run, open_write.
      cbn [fs trace]. unfold freeze_proc at 1.
      rewrite (Steps.launch_error_env h pd ["freeze"] true (fs w) n' Henv).
      fold (freeze_proc h pd). rewrite L, R'. cbn [fs trace].
      by rewrite Hfs', Hsame, (FsFacts.write_twice _ _ _ _ W). }
    rewrite E. cbn [world_of fs trace]. rewrite E2. split; [done|].
    intros w1 [= <-]. exists (proc_stdout r). eexists. split; [exact E2|]. simpl.
    rewrite (FsFacts.write_read _ _ _ _ W).
    repeat split; by rewrite <- ?app_assoc.
Qed.

Lemma resync_idempotent_witness :
  freeze_is_query Demo.linux /\
  fs (world_of (update_requirements Demo.linux ["proj"]
         (world_of (update_requirements Demo.linux ["proj"] (Demo.world Demo.with_manifest))))) =
    fs (world_of (update_requirements Demo.linux ["proj"] (Demo.world Demo.with_manifest))).
Proof.
  split; [apply DemoFacts.demo_freeze_is_query|].
  exact (proj1 (resync_idempotent Demo.linux ["proj"] (Demo.world Demo.with_manifest)
                  (DemoFacts.demo_freeze_is_query "posix" "linux"))).
Defined.

(* ===================================================================== *)
(** ** Installing and removing *)
(* ===================================================================== *)




(** The entry of a manifest is found under any spelling of the name, and
    in the other forms of line that [pip freeze] writes. *)
Example manifest_mentions_examples :
  manifest_mentions "pyyaml" ("PyYAML==6.0.3" +:+ newline) = true /\
  manifest_mentions "Typing_Extensions" ("typing-extensions==4.9.0" +:+ newline) = true /\
  manifest_mentions "requests" ("requests @ file:///tmp/requests-2.31.0.whl" +:+ newline) = true /\
  manifest_mentions "demo" ("-e git+https://example.org/demo.git@abc123#egg=demo" +:+ newline) = true /\
  manifest_mentions "request" ("requests==2.31.0" +:+ newline) = false /\
  manifest_mentions "requests" ("# requests is gone" +:+ newline) = false.
Proof. repeat split; reflexivity. Qed.

(* ===================================================================== *)
(** ** Importing a Poetry project *)
(* ===================================================================== *)

Module Importer.

Lemma parent_is_dir (pd : Path) (x : string) (n : node) (c : string) :
  Fs.read (pd ++ [x]) n = inr c -> Fs.is_dir pd n = true.
Proof.
  unfold Fs.read, Fs.is_dir. rewrite FsFacts.stat_app.
  destruct (Fs.stat pd n) as [e|[c0|es]]; simpl; done.
Qed.

Lemma read_exists (p : Path) (n : node) (c : string) :
  Fs.read p n = inr c -> Fs.exists_ p n = true.
Proof.
  unfold Fs.read, Fs.exists_. by destruct (Fs.stat p n).
Qed.

(** Whatever [init_project] does, it only adds to the trace. *)
Lemma init_project_extends (h : Host) (pd : Path) (w : World) :
  exists rest, trace (world_of (init_project h pd w)) = trace w ++ rest.
Proof.
  unfold init_project, create_virtualenv, os_path_exists, open_write,
    venv_create_call, print, emit, mbind, M_bind.
  destruct (Fs.exists_ _ (fs w)); cbn [world_of trace]; [eauto|].
  destruct (Fs.write _ _ (fs w)) as [e|n']; cbn [world_of trace fs];
    [exists []; by rewrite app_nil_r|].
  destruct (venv_create h _ n') as [n'' [e|]]; cbn [world_of trace fs];
    rewrite <- ?app_assoc; eauto.
Qed.

(** The import up to and including its write of the manifest. *)
Lemma convert_writes (h : Host) (pd : Path) (w : World)
    (text : string) (doc merged : dict) (deps dev : toml) :
  Fs.read (pd ++ ["pyproject.toml"]) (fs w) = inr text ->
  toml_load h text = inr doc ->
  poetry_group "dependencies" doc = inr deps ->
  poetry_group "dev-dependencies" doc = inr dev ->
  merged_dependencies deps dev = inr merged ->
  Fs.is_dir (manifest_path pd) (fs w) = false ->
  exists rest,
    trace (world_of (convert_from_poetry h pd w)) =
    trace w ++ EvWrite (manifest_path pd)
                 (String.concat newline (map (requirement_line h) merged)) :: rest.
Proof.
  intros Hread Hload Hdeps Hdev Hmerged Hfree.
  destruct (FsFacts.write_in_dir pd "requirements.txt"
              (String.concat newline (map (requirement_line h) merged)) (fs w)
              (parent_is_dir _ _ _ _ Hread) Hfree) as [n' W].
  unfold convert_from_poetry, os_path_exists, open_read, open_write, lift,
    mbind, M_bind, mret, M_ret, os_path_join.
  rewrite (read_exists _ _ _ Hread). cbn [negb]. cbv beta iota.
  rewrite Hread. cbv beta iota.
  rewrite Hload. cbv beta iota. rewrite Hdeps. cbv beta iota.
  rewrite Hdev. cbv beta iota. rewrite Hmerged. cbv beta iota.
  unfold manifest_path, os_path_join. rewrite W. cbv beta iota.
  destruct (init_project_extends h pd
              {| fs := n';
                 trace := trace w ++ [EvWrite (pd ++ ["requirements.txt"])
                   (String.concat newline (map (requirement_line h) merged))] |})
    as [rest Hrest].
  cbn [trace] in Hrest.
  destruct (init_project h pd _) as [[] w'|e w']; cbn [world_of] in *.
  - unfold print, emit. cbn [trace world_of]. rewrite Hrest, <- !app_assoc.
    simpl. eauto.
  - rewrite Hrest, <- app_assoc. simpl. eauto.
Qed.

End Importer.

Lemma requirement_line_text (h : Host) (d : dict) :
  map (requirement_line h) d =
  map (fun e => fst e +:+ constraint_text h (snd e)) d.
Proof. reflexivity. Qed.

(** The import writes the lines of the specification's merge. *)
Lemma convert_writes_spec (h : Host) (pd : Path) (w : World)
    (text : string) (doc deps dev : dict) :
  Fs.read (pd ++ ["pyproject.toml"]) (fs w) = inr text ->
  toml_load h text = inr doc ->
  poetry_group "dependencies" doc = inr (TTable deps) ->
  poetry_group "dev-dependencies" doc = inr (TTable dev) ->
  List.NoDup (Dict.keys deps) ->
  List.NoDup (Dict.keys dev) ->
  Fs.is_dir (manifest_path pd) (fs w) = false ->
  exists rest,
    trace (world_of (convert_from_poetry h pd w)) =
    trace w ++
    EvWrite (manifest_path pd)
      (String.concat newline
         (map (fun e => fst e +:+ constraint_text h (snd e))
              (merged_spec (without_python deps) dev))) :: rest.
Proof.
  intros Hread Hload Hdeps Hdev Nd Ndev Hfree.
  rewrite <- requirement_line_text.
  exact (Importer.convert_writes h pd w text doc _ _ _ Hread Hload Hdeps Hdev
           (SpecFacts.merged_dependencies_spec deps dev Nd Ndev) Hfree).
Qed.

(** C3. When the runtime and the development tables of a Poetry manifest
    share a key, the manifest that [convert_from_poetry] writes carries
    the development table's constraint for it.  What is written is the
    merge of the specification, line by line the key followed by the text
    of its constraint: every runtime key but [python] in its place, then
    the keys that are the development table's alone; the shared key is
    followed by the development constraint, and the runtime constraint for
    it, where it differs, is not in the merge. *)
Theorem import_development_wins
    (h : Host) (pd : Path) (w : World) (text : string) (doc deps dev : dict)
    (k : string) (vr vd : toml) :
  Fs.read (pd ++ ["pyproject.toml"]) (fs w) = inr text ->
  toml_load h text = inr doc ->
  poetry_group "dependencies" doc = inr (TTable deps) ->
  poetry_group "dev-dependencies" doc = inr (TTable dev) ->
  List.NoDup (Dict.keys deps) ->
  List.NoDup (Dict.keys dev) ->
  Fs.is_dir (manifest_path pd) (fs w) = false ->
  Dict.lookup k deps = Some vr ->
  Dict.lookup k dev = Some vd ->
  let entries := merged_spec (without_python deps) dev in
  let written := map (fun e => fst e +:+ constraint_text h (snd e)) entries in
  (exists rest,
     trace (world_of (convert_from_poetry h pd w)) =
     trace w ++ EvWrite (manifest_path pd) (String.concat newline written) :: rest) /\
  In (k +:+ constraint_text h vd) written /\
  In (k, vd) entries /\
  (forall v, In (k, v) entries -> v = vd) /\
  (vr <> vd -> ~ In (k, vr) entries) /\
  (k <> "python" ->
   exists before after,
     without_python deps = before ++ (k, vr) :: after /\
     entries = map (fun e => (fst e, match Dict.lookup (fst e) dev with
                                     | Some v => v
                                     | None => snd e
                                     end)) before ++ (k, vd) ::
               map (fun e => (fst e, match Dict.lookup (fst e) dev with
                                     | Some v => v
                                     | None => snd e
                                     end)) after ++
               List.filter (fun e => negb (Dict.mem (fst e) (without_python deps))) dev).
Proof.
  intros Hread Hload Hdeps Hdev Nd Ndev Hfree Hkr Hkd entries written.
  assert (Nd' : List.NoDup (Dict.keys (without_python deps))).
  { rewrite <- SpecFacts.del_python. by apply DictFacts.NoDup_del. }
  assert (Hl : Dict.lookup k entries = Some vd).
  { unfold entries. by rewrite SpecFacts.lookup_merged_spec, Hkd. }
  assert (Ne : List.NoDup (Dict.keys entries)).
  { unfold entries. rewrite <- (SpecFacts.merge_is_spec _ _ Nd' Ndev).
    by apply DictFacts.NoDup_merge. }
  assert (Hu : forall v, In (k, v) entries -> v = vd).
  { intros v Hv. apply (DictFacts.In_lookup _ _ _ Ne) in Hv. congruence. }
  pose proof (DictFacts.lookup_In _ _ _ Hl) as Hin.
  split; [exact (convert_writes_spec h pd w text doc deps dev
                   Hread Hload Hdeps Hdev Nd Ndev Hfree)|].
  split; [exact (in_map (fun e => fst e +:+ constraint_text h (snd e)) _ _ Hin)|].
  split; [done|]. split; [done|].
  split; [intros Hne Hr; by apply Hne, Hu|].
  intros Hpy.
  assert (Hr : In (k, vr) (without_python deps)).
  { apply SpecFacts.In_without_python. split; [by apply DictFacts.lookup_In | done]. }
  destruct (in_split _ _ Hr) as (before & after & Hsplit).
  exists before, after. split; [done|].
  unfold entries, merged_spec. rewrite Hsplit at 1.
  rewrite map_app. cbn [map fst snd]. rewrite Hkd. by rewrite <- app_assoc.
Qed.

Lemma import_development_wins_witness :
  let w := Demo.world Demo.poetry_project in
  let deps := [("python", TStr "^3.9"); ("A", TStr "^1.0"); ("B", TStr "^2.0")] in
  let dev := [("B", TStr "^3.0"); ("C", TStr "^1.0")] in
  Fs.read (["proj"] ++ ["pyproject.toml"]) (fs w) = inr Demo.sample_text /\
  toml_load Demo.linux Demo.sample_text = inr Demo.sample_doc /\
  poetry_group "dependencies" Demo.sample_doc = inr (TTable deps) /\
  poetry_group "dev-dependencies" Demo.sample_doc = inr (TTable dev) /\
  Dict.lookup "B" deps = Some (TStr "^2.0") /\
  Dict.lookup "B" dev = Some (TStr "^3.0") /\
  (exists rest,
     trace (world_of (convert_from_poetry Demo.linux ["proj"] w)) =
     trace w ++ EvWrite (manifest_path ["proj"])
                  ("A^1.0" +:+ newline +:+ "B^3.0" +:+ newline +:+ "C^1.0") :: rest) /\
  In "B^3.0" ["A^1.0"; "B^3.0"; "C^1.0"] /\
  ~ In ("B", TStr "^2.0") (merged_spec (without_python deps) dev).
Proof.
  intros w deps dev.
  do 6 (split; [reflexivity|]).
  assert (Nd : List.NoDup (Dict.keys deps))
    by (repeat constructor; simpl; intuition discriminate).
  assert (Ndev : List.NoDup (Dict.keys dev))
    by (repeat constructor; simpl; intuition discriminate).
  destruct (import_development_wins Demo.linux ["proj"] w Demo.sample_text
              Demo.sample_doc deps dev "B" (TStr "^2.0") (TStr "^3.0")
              eq_refl eq_refl eq_refl eq_refl Nd Ndev eq_refl eq_refl eq_refl)
    as (Hw & Hline & _ & _ & Hno & _).
  split; [exact Hw|]. split; [exact Hline|].
  apply Hno. discriminate.
Defined.

(** The example of the specification: runtime [{A: ^1.0, B: ^2.0}] under
    development [{B: ^3.0, C: ^1.0}]. *)
Example merge_precedence_example :
  merged_dependencies (TTable [("A", TStr "^1.0"); ("B", TStr "^2.0")])
                      (TTable [("B", TStr "^3.0"); ("C", TStr "^1.0")]) =
  inr [("A", TStr "^1.0"); ("B", TStr "^3.0"); ("C", TStr "^1.0")].
Proof. reflexivity. Qed.

(** The same merge, through the whole import on the small host. *)
Example import_merge_example :
  Fs.read (manifest_path ["proj"])
    (fs (world_of (convert_from_poetry Demo.linux ["proj"] (Demo.world Demo.poetry_project)))) =
  inr ("A^1.0" +:+ newline +:+ "B^3.0" +:+ newline +:+ "C^1.0").
Proof. reflexivity. Qed.

(** C4. When the runtime table has a [python] key, [convert_from_poetry]
    removes it before merging.  What is written is the merge of the
    runtime table without that key and the development table, line by
    line the key followed by the text of its constraint: every other
    runtime entry that the development table does not redefine is written
    as it stands, every other runtime key has its line, every line comes
    from a runtime entry other than [python] or from a development entry,
    and an entry for [python] can only be the development table's. *)
Theorem import_drops_python
    (h : Host) (pd : Path) (w : World) (text : string) (doc deps dev : dict) :
  Fs.read (pd ++ ["pyproject.toml"]) (fs w) = inr text ->
  toml_load h text = inr doc ->
  poetry_group "dependencies" doc = inr (TTable deps) ->
  poetry_group "dev-dependencies" doc = inr (TTable dev) ->
  List.NoDup (Dict.keys deps) ->
  List.NoDup (Dict.keys dev) ->
  Fs.is_dir (manifest_path pd) (fs w) = false ->
  Dict.mem "python" deps = true ->
  let entries := merged_spec (without_python deps) dev in
  let written := map (fun e => fst e +:+ constraint_text h (snd e)) entries in
  (exists rest,
     trace (world_of (convert_from_poetry h pd w)) =
     trace w ++ EvWrite (manifest_path pd) (String.concat newline written) :: rest) /\
  (forall k v, In (k, v) deps -> k <> "python" -> Dict.mem k dev = false ->
     In (k, v) entries /\ In (k +:+ constraint_text h v) written) /\
  (forall k v, In (k, v) deps -> k <> "python" ->
     exists v', In (k, v') entries /\ In (k +:+ constraint_text h v') written) /\
  (forall line, In line written ->
     exists k v, line = k +:+ constraint_text h v /\
                 ((In (k, v) deps /\ k <> "python") \/ In (k, v) dev)) /\
  (forall v, In ("python", v) entries -> In ("python", v) dev) /\
  length written = length (without_python deps) +
                   length (List.filter (fun e => negb (Dict.mem (fst e) (without_python deps))) dev) /\
  length (without_python deps) < length deps.
Proof.
  intros Hread Hload Hdeps Hdev Nd Ndev Hfree Hpy entries written.
  split; [exact (convert_writes_spec h pd w text doc deps dev
                   Hread Hload Hdeps Hdev Nd Ndev Hfree)|].
  split.
  { intros k v Hin Hne Hnodev.
    assert (He : In (k, v) entries).
    { apply SpecFacts.In_merged_spec_runtime; [|done].
      by apply SpecFacts.In_without_python. }
    split; [done|].
    exact (in_map (fun e => fst e +:+ constraint_text h (snd e)) _ _ He). }
  split.
  { intros k v Hin Hne.
    assert (Hr : In (k, v) (without_python deps)) by (by apply SpecFacts.In_without_python).
    assert (He : In (k, match Dict.lookup k dev with Some v' => v' | None => v end) entries).
    { unfold entries, merged_spec. rewrite in_app_iff, in_map_iff. left.
      by exists (k, v). }
    eexists. split; [exact He|].
    exact (in_map (fun e => fst e +:+ constraint_text h (snd e)) _ _ He). }
  split.
  { intros line Hline. unfold written in Hline. apply in_map_iff in Hline.
    destruct Hline as ([k v] & <- & He). exists k, v. split; [done|].
    destruct (SpecFacts.In_merged_spec _ _ _ _ He) as [[Hr _]|Hd]; [left | by right].
    by apply SpecFacts.In_without_python. }
  split.
  { intros v Hv.
    destruct (SpecFacts.In_merged_spec _ _ _ _ Hv) as [[Hr _]|Hd]; [|done].
    apply SpecFacts.In_without_python in Hr. by destruct Hr. }
  split.
  { unfold written, entries, merged_spec.
    by rewrite length_map, length_app, length_map. }
  unfold Dict.mem in Hpy. destruct (Dict.lookup "python" deps) as [vp|] eqn:E; [|done].
  apply DictFacts.lookup_In in E. clear -E.
  unfold without_python.
  induction deps as [|[k0 v0] deps IH]; [done|]. simpl.
  destruct E as [[= -> ->]|E].
  - simpl. pose proof (List.filter_length_le
      (fun e : string * toml => negb (String.eqb (fst e) "python")) deps). lia.
  - specialize (IH E). destruct (negb (String.eqb k0 "python")); simpl; lia.
Qed.

Lemma import_drops_python_witness :
  let w := Demo.world Demo.poetry_project in
  let deps := [("python", TStr "^3.9"); ("A", TStr "^1.0"); ("B", TStr "^2.0")] in
  let dev := [("B", TStr "^3.0"); ("C", TStr "^1.0")] in
  Dict.mem "python" deps = true /\
  (exists rest,
     trace (world_of (convert_from_poetry Demo.linux ["proj"] w)) =
     trace w ++ EvWrite (manifest_path ["proj"])
                  ("A^1.0" +:+ newline +:+ "B^3.0" +:+ newline +:+ "C^1.0") :: rest) /\
  In ("A" +:+ "^1.0") ["A^1.0"; "B^3.0"; "C^1.0"] /\
  (forall v, ~ In ("python", v) (merged_spec (without_python deps) dev)).
Proof.
  intros w deps dev. split; [reflexivity|].
  assert (Nd : List.NoDup (Dict.keys deps))
    by (repeat constructor; simpl; intuition discriminate).
  assert (Ndev : List.NoDup (Dict.keys dev))
    by (repeat constructor; simpl; intuition discriminate).
  destruct (import_drops_python Demo.linux ["proj"] w Demo.sample_text
              Demo.sample_doc deps dev eq_refl eq_refl eq_refl eq_refl Nd Ndev
              eq_refl eq_refl)
    as (Hw & Hkeep & _ & _ & Hpy & _).
  split; [exact Hw|]. split.
  - exact (proj2 (Hkeep "A" (TStr "^1.0") ltac:(simpl; tauto) ltac:(discriminate) eq_refl)).
  - intros v Hv. apply Hpy in Hv. simpl in Hv.
    destruct Hv as [[=]|[[=]|[]]].
Defined.

(** The example of the specification: runtime [{python: ^3.9, requests:
    ^2.0}] and no development table give the one line [requests^2.0]. *)
Example python_removed_example :
  merged_dependencies (TTable [("python", TStr "^3.9"); ("requests", TStr "^2.0")])
                      (TTable []) =
    inr [("requests", TStr "^2.0")] /\
  map (requirement_line Demo.linux) [("requests", TStr "^2.0")] = ["requests^2.0"].
Proof. split; reflexivity. Qed.

(** A [python] key of the development table is not filtered. *)
Example development_python_example :
  merged_dependencies (TTable [("python", TStr "^3.9"); ("requests", TStr "^2.0")])
                      (TTable [("python", TStr "^3.8")]) =
  inr [("requests", TStr "^2.0"); ("python", TStr "^3.8")].
Proof. reflexivity. Qed.

(* ===================================================================== *)
(** ** Beyond the claims: installing, removing, resynchronising *)
(* ===================================================================== *)

Module More.

Lemma update_requirements_ok (h : Host) (pd : Path) (w w1 : World) (r : Completed) :
  subprocess_run h (freeze_proc h pd) w = Ok r w1 ->
  Fs.is_dir pd (fs w1) = true ->
  Fs.is_dir (manifest_path pd) (fs w1) = false ->
  exists n' : node,
    Fs.write (manifest_path pd) (proc_stdout r) (fs w1) = inr n' /\
    Fs.read (manifest_path pd) n' = inr (proc_stdout r) /\
    update_requirements h pd w =
      Ok tt {| fs := n'; trace := trace w1 ++ [EvWrite (manifest_path pd) (proc_stdout r)] |}.
Proof.
  intros Hrun Hd Hm.
  destruct (FsFacts.write_in_dir pd "requirements.txt" (proc_stdout r) (fs w1) Hd Hm)
    as [n' W].
  change (pd ++ ["requirements.txt"]) with (manifest_path pd) in W.
  exists n'. split; [done|]. split; [by apply (FsFacts.write_read _ _ _ _ W)|].
  rewrite Steps.update_requirements_unfold, Hrun. unfold open_write. by rewrite W.
Qed.

(** The events that one resync can add. *)
Lemma update_requirements_events (h : Host) (pd : Path) (w : World) :
  exists added,
    trace (world_of (update_requirements h pd w)) = trace w ++ added /\
    Forall (installer_event h pd) added.
Proof.
  destruct (update_requirements_cases h pd w)
    as [[e E]|(r & L & R & [(e & W & E)|(n' & W & E)])]; rewrite E; cbn [world_of trace].
  - exists []. by rewrite app_nil_r.
  - eexists. split; [done|]. repeat constructor. by exists ["freeze"], true.
  - eexists. rewrite <- app_assoc. split; [done|].
    repeat constructor. by exists ["freeze"], true.
Qed.

(** One installer call followed by the resync and the closing message:
    the common shape of [install_package] and [uninstall_package]. *)
Lemma mutation_events (h : Host) (pd : Path) (args : list string) (msg : string) (w : World) :
  exists added,
    trace (world_of
      (match subprocess_run h (pip h pd args false) w with
       | Ok _ w' =>
           match update_requirements h pd w' with
           | Ok _ w'' => Ok tt (emit (EvPrint msg) w'')
           | Raise e w'' => Raise e w''
           end
       | Raise e w' => Raise e w'
       end)) = trace w ++ added /\
    Forall (installer_event h pd) added.
Proof.
  unfold subprocess_run.
  destruct (launch_error _ (fs w)); cbn [world_of];
    [exists []; by rewrite app_nil_r|].
  destruct (run_program h _ (fs w)) as [e|r]; cbn [world_of];
    [exists []; by rewrite app_nil_r|].
  set (w' := {| fs := proc_fs r; trace := _ |}).
  destruct (update_requirements_events h pd w') as (added & Ht & Hall).
  destruct (update_requirements h pd w') as [[] w''|e w'']; cbn [world_of] in *.
  - exists ([EvSpawn (pip h pd args false)] ++ added ++ [EvPrint msg]).
    unfold emit. cbn [trace]. rewrite Ht. subst w'. cbn [trace].
    rewrite <- !app_assoc. split; [done|].
    apply Forall_app. split; [repeat constructor; by exists args, false|].
    apply Forall_app. split; [done | by repeat constructor].
  - exists ([EvSpawn (pip h pd args false)] ++ added).
    rewrite Ht. subst w'. cbn [trace]. rewrite <- !app_assoc. split; [done|].
    apply Forall_app. split; [repeat constructor; by exists args, false | done].
Qed.

End More.

(** X1. [install_package] does not look at the installer's exit status:
    once [pip install] has run, however it ended, the manifest is
    resynchronised from [pip freeze] and "Installed package" is printed. *)
Theorem install_ignores_exit_status
    (h : Host) (pd : Path) (P : string) (w w1 w2 : World) (ri rf : Completed) :
  subprocess_run h (pip h pd ["install"; P] false) w = Ok ri w1 ->
  subprocess_run h (freeze_proc h pd) w1 = Ok rf w2 ->
  Fs.is_dir pd (fs w2) = true ->
  Fs.is_dir (manifest_path pd) (fs w2) = false ->
  exists w3 : World,
    install_package h pd P w = Ok tt w3 /\
    Fs.read (manifest_path pd) (fs w3) = inr (proc_stdout rf) /\
    trace w3 = trace w2 ++ [EvWrite (manifest_path pd) (proc_stdout rf);
                            EvPrint ("Installed package: " +:+ P)].
Proof.
  intros Hi Hf Hd Hm.
  destruct (More.update_requirements_ok h pd w1 w2 rf Hf Hd Hm) as (n' & W & R & E).
  rewrite Steps.install_package_unfold, Hi, E.
  eexists. split; [reflexivity|]. cbn [emit fs trace].
  split; [done|]. by rewrite <- app_assoc.
Qed.

Lemma install_ignores_exit_status_witness :
  let w := Demo.world Demo.with_env in
  let ri := mkCompleted Demo.with_env "" 1 in
  let rf := mkCompleted Demo.with_env "" 0 in
  let w1 := {| fs := Demo.with_env;
               trace := [EvSpawn (pip Demo.linux ["proj"] ["install"; "flask"] false)] |} in
  let w2 := {| fs := Demo.with_env;
               trace := trace w1 ++ [EvSpawn (freeze_proc Demo.linux ["proj"])] |} in
  subprocess_run Demo.linux (pip Demo.linux ["proj"] ["install"; "flask"] false) w = Ok ri w1 /\
  returncode ri = 1%Z /\
  subprocess_run Demo.linux (freeze_proc Demo.linux ["proj"]) w1 = Ok rf w2 /\
  Fs.is_dir ["proj"] (fs w2) = true /\
  Fs.is_dir (manifest_path ["proj"]) (fs w2) = false /\
  exists w3 : World,
    install_package Demo.linux ["proj"] "flask" w = Ok tt w3 /\
    Fs.read (manifest_path ["proj"]) (fs w3) = inr (proc_stdout rf) /\
    trace w3 = trace w2 ++ [EvWrite (manifest_path ["proj"]) (proc_stdout rf);
                            EvPrint ("Installed package: " +:+ "flask")].
Proof.
  intros w ri rf w1 w2.
  do 5 (split; [reflexivity|]).
  exact (install_ignores_exit_status Demo.linux ["proj"] "flask" w w1 w2 ri rf
           eq_refl eq_refl eq_refl eq_refl).
Defined.

(** X2. [uninstall_package] does not look at the installer's exit status
    either: a removal that failed, or that found nothing to remove, is
    followed by the resync and by "Uninstalled package" all the same. *)
Theorem uninstall_ignores_exit_status
    (h : Host) (pd : Path) (P : string) (w w1 w2 : World) (ru rf : Completed) :
  subprocess_run h (pip h pd ["uninstall"; "-y"; P] false) w = Ok ru w1 ->
  subprocess_run h (freeze_proc h pd) w1 = Ok rf w2 ->
  Fs.is_dir pd (fs w2) = true ->
  Fs.is_dir (manifest_path pd) (fs w2) = false ->
  exists w3 : World,
    uninstall_package h pd P w = Ok tt w3 /\
    Fs.read (manifest_path pd) (fs w3) = inr (proc_stdout rf) /\
    trace w3 = trace w2 ++ [EvWrite (manifest_path pd) (proc_stdout rf);
                            EvPrint ("Uninstalled package: " +:+ P)].
Proof.
  intros Hu Hf Hd Hm.
  destruct (More.update_requirements_ok h pd w1 w2 rf Hf Hd Hm) as (n' & W & R & E).
  rewrite Steps.uninstall_package_unfold, Hu, E.
  eexists. split; [reflexivity|]. cbn [emit fs trace].
  split; [done|]. by rewrite <- app_assoc.
Qed.

Lemma uninstall_ignores_exit_status_witness :
  let w := Demo.world Demo.with_manifest in
  let ru := mkCompleted Demo.with_manifest "" 1 in
  let rf := mkCompleted Demo.with_manifest "" 0 in
  let w1 := {| fs := Demo.with_manifest;
               trace := [EvSpawn (pip Demo.linux ["proj"] ["uninstall"; "-y"; "flask"] false)] |} in
  let w2 := {| fs := Demo.with_manifest;
               trace := trace w1 ++ [EvSpawn (freeze_proc Demo.linux ["proj"])] |} in
  subprocess_run Demo.linux (pip Demo.linux ["proj"] ["uninstall"; "-y"; "flask"] false) w = Ok ru w1 /\
  returncode ru = 1%Z /\
  subprocess_run Demo.linux (freeze_proc Demo.linux ["proj"]) w1 = Ok rf w2 /\
  Fs.is_dir ["proj"] (fs w2) = true /\
  Fs.is_dir (manifest_path ["proj"]) (fs w2) = false /\
  exists w3 : World,
    uninstall_package Demo.linux ["proj"] "flask" w = Ok tt w3 /\
    Fs.read (manifest_path ["proj"]) (fs w3) = inr (proc_stdout rf) /\
    trace w3 = trace w2 ++ [EvWrite (manifest_path ["proj"]) (proc_stdout rf);
                            EvPrint ("Uninstalled package: " +:+ "flask")].
Proof.
  intros w ru rf w1 w2.
  do 5 (split; [reflexivity|]).
  exact (uninstall_ignores_exit_status Demo.linux ["proj"] "flask" w w1 w2 ru rf
           eq_refl eq_refl eq_refl eq_refl).
Defined.

(** X3. Whatever happens, [list_packages], [install_package] and
    [uninstall_package] start no program other than the environment's
    installer, write no file other than the manifest, and never create an
    environment. *)
Theorem package_operations_stay_in_bounds
    (h : Host) (pd : Path) (op : EnvOp) (w : World) :
  match op with
  | OpRun _ => True
  | _ =>
      exists added,
        trace (world_of (perform h pd op w)) = trace w ++ added /\
        Forall (installer_event h pd) added
  end.
Proof.
  destruct op as [|cmds|P|P]; [|done| |]; cbn [perform].
  - unfold list_packages, os_path_exists, mbind, M_bind.
    destruct (Fs.exists_ _ (fs w)); cbn [negb].
    + rewrite (Steps.get_pip_exe_ok h pd w). unfold subprocess_run.
      fold (pip h pd ["list"] false).
      destruct (launch_error _ (fs w)); cbn [world_of];
        [exists []; by rewrite app_nil_r|].
      destruct (run_program h _ (fs w)) as [e|r]; cbn [world_of mret M_ret trace];
        [exists []; by rewrite app_nil_r|].
      eexists. split; [done|]. repeat constructor. by exists ["list"], false.
    + unfold print, emit. cbn [world_of trace]. eexists. split; [done|].
      by repeat constructor.
  - rewrite Steps.install_package_unfold. apply More.mutation_events.
  - rewrite Steps.uninstall_package_unfold. apply More.mutation_events.
Qed.

(** X4. A resync whose [pip freeze] leaves the files alone changes nothing
    in the project directory but [requirements.txt]: every other entry of
    the directory, and all that is below it, is as before, whether the
    resync returns or raises. *)
Theorem resync_touches_only_manifest
    (h : Host) (pd : Path) (w : World) (y : string) (q : Path) :
  (forall r, run_program h (freeze_proc h pd) (fs w) = inr r -> proc_fs r = fs w) ->
  y <> "requirements.txt" ->
  Fs.stat (pd ++ y :: q) (fs (world_of (update_requirements h pd w))) =
  Fs.stat (pd ++ y :: q) (fs w).
Proof.
  intros Hq Hy.
  destruct (update_requirements_cases h pd w)
    as [[e E]|(r & L & R & [(e & W & E)|(n' & W & E)])]; rewrite E; cbn [world_of fs].
  - done.
  - by rewrite (Hq r R).
  - rewrite (Hq r R) in W.
    apply (FsFacts.write_frame pd "requirements.txt" y [] q _ _ _ (not_eq_sym Hy) W).
Qed.

Lemma resync_touches_only_manifest_witness :
  (forall r, run_program Demo.linux (freeze_proc Demo.linux ["proj"])
               (fs (Demo.world Demo.with_manifest)) = inr r ->
             proc_fs r = fs (Demo.world Demo.with_manifest)) /\
  ".venv" <> "requirements.txt" /\
  Fs.stat (["proj"] ++ ".venv" :: ["bin"; "pip"])
    (fs (world_of (update_requirements Demo.linux ["proj"] (Demo.world Demo.with_manifest)))) =
  Fs.stat (["proj"] ++ ".venv" :: ["bin"; "pip"]) (fs (Demo.world Demo.with_manifest)).
Proof.
  assert (H : forall r, run_program Demo.linux (freeze_proc Demo.linux ["proj"])
               (fs (Demo.world Demo.with_manifest)) = inr r ->
             proc_fs r = fs (Demo.world Demo.with_manifest))
    by (intros r [= <-]; reflexivity).
  split; [exact H|]. split; [discriminate|].
  exact (resync_touches_only_manifest Demo.linux ["proj"] (Demo.world Demo.with_manifest)
           ".venv" ["bin"; "pip"] H ltac:(discriminate)).
Defined.

(* ===================================================================== *)
(** ** Beyond the claims: running commands, the environment's life cycle *)
(* ===================================================================== *)

(** X5. [run_in_venv] sees its command words only through their
    space-joined text: two word lists with the same join run the same
    command, so the boundaries between the caller's words are lost. *)
Theorem run_forgets_word_boundaries
    (h : Host) (pd : Path) (c1 c2 : list string) (w : World) :
  String.concat " " c1 = String.concat " " c2 ->
  run_in_venv h pd c1 w = run_in_venv h pd c2 w.
Proof.
  intros E. unfold run_in_venv. by rewrite E.
Qed.

Lemma run_forgets_word_boundaries_witness :
  String.concat " " ["python"; "my script.py"] = String.concat " " ["python"; "my"; "script.py"] /\
  run_in_venv Demo.linux ["proj"] ["python"; "my script.py"] (Demo.world Demo.with_env) =
  run_in_venv Demo.linux ["proj"] ["python"; "my"; "script.py"] (Demo.world Demo.with_env).
Proof.
  split; [reflexivity|].
  exact (run_forgets_word_boundaries Demo.linux ["proj"] ["python"; "my script.py"]
           ["python"; "my"; "script.py"] (Demo.world Demo.with_env) eq_refl).
Defined.

(** X6. On a POSIX or Windows host with an environment, [run_in_venv]
    starts exactly one shell: the activation script ([bin/activate] when
    the probe finds it, [Scripts/activate] otherwise), [&&], the words.
    It returns normally whatever the exit status of that command, and
    raises what the host raises when the shell cannot be started. *)
Theorem run_starts_one_shell
    (h : Host) (pd : Path) (commands : list string) (w : World) :
  os_name h = "posix" \/ os_name h = "nt" ->
  Fs.exists_ (pd ++ [".venv"]) (fs w) = true ->
  run_in_venv h pd commands w =
    match run_program h (shell_of h pd commands (fs w)) (fs w) with
    | inr r => Ok tt {| fs := proc_fs r;
                        trace := trace w ++ [EvSpawn (shell_of h pd commands (fs w))] |}
    | inl e => Raise e w
    end.
Proof.
  intros Hos Hv.
  unfold run_in_venv, os_path_exists, os_path_join, mbind, M_bind.
  rewrite Hv. cbn [negb]. unfold shell_of, activation.
  replace ((pd ++ [".venv"]) ++ ["bin"; "activate"]) with (pd ++ [".venv"; "bin"; "activate"])
    by (by rewrite <- app_assoc).
  replace ((pd ++ [".venv"]) ++ ["Scripts"; "activate"])
    with (pd ++ [".venv"; "Scripts"; "activate"]) by (by rewrite <- app_assoc).
  destruct (Fs.exists_ (pd ++ [".venv"; "bin"; "activate"]) (fs w)); cbn [negb];
    (destruct Hos as [-> | ->]; cbn [String.eqb Ascii.eqb Bool.eqb];
     unfold subprocess_run; cbn [launch_error];
     match goal with |- context [run_program h ?p ?n] =>
       destruct (run_program h p n) end; reflexivity).
Qed.

Lemma run_starts_one_shell_witness :
  (os_name Demo.linux = "posix" \/ os_name Demo.linux = "nt") /\
  Fs.exists_ (["proj"] ++ [".venv"]) (fs (Demo.world Demo.with_env)) = true /\
  run_in_venv Demo.linux ["proj"] ["pytest"; "-q"] (Demo.world Demo.with_env) =
    Ok tt {| fs := Demo.with_env;
             trace := [EvSpawn (Shell ". /proj/.venv/bin/activate && pytest -q" None)] |}.
Proof.
  split; [left; reflexivity|]. split; [reflexivity|].
  exact (run_starts_one_shell Demo.linux ["proj"] ["pytest"; "-q"]
           (Demo.world Demo.with_env) (or_introl eq_refl) eq_refl).
Defined.

(** X7. [delete_virtualenv] does not check that there is an environment,
    nor how [rm] ended: whenever [rm] could be started, "Deleted virtual
    environment" is printed, also where nothing was there to delete; when
    [rm] cannot be started the error escapes and nothing is printed. *)
Theorem delete_reports_without_checking (h : Host) (pd : Path) (w : World) :
  delete_virtualenv h pd w =
    match run_program h (Exec (ProgName "rm") ["-rf"; path_str h (venv_path pd)] false) (fs w) with
    | inr r =>
        Ok tt {| fs := proc_fs r;
                 trace := trace w ++
                   [EvSpawn (Exec (ProgName "rm") ["-rf"; path_str h (venv_path pd)] false);
                    EvPrint ("Deleted virtual environment at: " +:+ path_str h (venv_path pd))] |}
    | inl e => Raise e w
    end.
Proof.
  unfold delete_virtualenv, subprocess_run, mbind, M_bind, venv_path. cbn [launch_error].
  destruct (run_program h _ (fs w)); [done|].
  unfold print, emit. cbn [fs trace]. by rewrite <- app_assoc.
Qed.

(** X8. In an existing project directory without a configuration,
    [init_project] first writes the default configuration, then announces
    it, then creates the environment, in that order; when the creation
    fails its error escapes with the configuration already in place. *)
Theorem init_project_fresh (h : Host) (pd : Path) (w : World) :
  Fs.is_dir pd (fs w) = true ->
  Fs.exists_ (config_path pd) (fs w) = false ->
  exists n1 : node,
    Fs.write (config_path pd) (yaml_dump h default_config) (fs w) = inr n1 /\
    Fs.read (config_path pd) n1 = inr (yaml_dump h default_config) /\
    let started :=
      trace w ++ [EvWrite (config_path pd) (yaml_dump h default_config);
                  EvPrint "Initialized .noetry.yml with default Python version 3.9.";
                  EvVenvCreate (venv_path pd)] in
    init_project h pd w =
      match venv_create h (venv_path pd) n1 with
      | (n2, None) =>
          Ok tt {| fs := n2;
                   trace := started ++
                     [EvPrint ("Created virtual environment at: " +:+
                               path_str h (venv_path pd))] |}
      | (n2, Some e) => Raise e {| fs := n2; trace := started |}
      end.
Proof.
  intros Hd Hc.
  assert (Hm : Fs.is_dir (pd ++ [NOETRY_YML]) (fs w) = false).
  { unfold Fs.is_dir, Fs.exists_, config_path, os_path_join in *.
    by destruct (Fs.stat (pd ++ [NOETRY_YML]) (fs w)). }
  destruct (FsFacts.write_in_dir pd NOETRY_YML (yaml_dump h default_config) (fs w) Hd Hm)
    as [n1 W].
  change (pd ++ [NOETRY_YML]) with (config_path pd) in W.
  exists n1. split; [done|]. split; [by apply (FsFacts.write_read _ _ _ _ W)|].
  unfold init_project, create_virtualenv, venv_create_call, os_path_exists, open_write,
    print, emit, mbind, M_bind.
  fold (config_path pd). fold (venv_path pd). fold default_config.
  rewrite Hc, W. cbn [fs trace].
  destruct (venv_create h (venv_path pd) n1) as [n2 [e|]]; cbn [fs trace];
    by rewrite <- !app_assoc.
Qed.

Lemma init_project_fresh_witness :
  Fs.is_dir ["proj"] (fs (Demo.world Demo.bare)) = true /\
  Fs.exists_ (config_path ["proj"]) (fs (Demo.world Demo.bare)) = false /\
  exists w1 : World,
    init_project Demo.linux ["proj"] (Demo.world Demo.bare) = Ok tt w1 /\
    Fs.read (config_path ["proj"]) (fs w1) = inr ("python_version: '3.9'" +:+ newline) /\
    Fs.exists_ (["proj"; ".venv"; "bin"; "pip"]) (fs w1) = true.
Proof.
  split; [reflexivity|]. split; [reflexivity|].
  destruct (init_project_fresh Demo.linux ["proj"] (Demo.world Demo.bare) eq_refl eq_refl)
    as (n1 & W & _ & E).
  vm_compute in W. injection W as <-.
  eexists. split; [exact E|]. split; reflexivity.
Defined.

(** X9. [init_project] does not retry a failed creation: when
    [venv.create] fails after the configuration has been written (and
    leaves it there), the next [init_project] finds the configuration,
    answers "already exists" and creates no environment. *)
Theorem init_project_no_retry
    (h : Host) (pd : Path) (w : World) (n1 n2 : node) (e : Exn) :
  Fs.exists_ (config_path pd) (fs w) = false ->
  Fs.write (config_path pd) (yaml_dump h default_config) (fs w) = inr n1 ->
  venv_create h (venv_path pd) n1 = (n2, Some e) ->
  Fs.exists_ (config_path pd) n2 = true ->
  exists w1 : World,
    init_project h pd w = Raise e w1 /\
    fs w1 = n2 /\
    init_project h pd w1 = Ok tt (emit (EvPrint ".noetry.yml already exists.") w1).
Proof.
  intros Hc W Hv Hc2.
  unfold init_project at 1.
  unfold create_virtualenv, venv_create_call, os_path_exists, open_write,
    print, emit, mbind, M_bind.
  fold (config_path pd). fold (venv_path pd). fold default_config.
  rewrite Hc, W. cbn [fs trace]. rewrite Hv.
  eexists. split; [reflexivity|]. split; [reflexivity|].
  unfold init_project, os_path_exists, mbind, M_bind.
  fold (config_path pd). cbn [fs]. by rewrite Hc2.
Qed.

(** X10. Where the project directory itself does not exist,
    [init_project] fails on writing the configuration: an error escapes,
    nothing is printed and no environment is created. *)
Theorem init_project_without_directory (h : Host) (pd : Path) (w : World) :
  Fs.exists_ pd (fs w) = false ->
  exists e : Exn, init_project h pd w = Raise e w.
Proof.
  intros Hd.
  assert (Hw : forall c, exists e, Fs.write (config_path pd) c (fs w) = inl e).
  { intros c. unfold config_path, os_path_join. revert Hd. generalize (fs w).
    unfold Fs.exists_.
    induction pd as [|x pd IH]; intros n Hd; [done|].
    simpl in *. destruct n as [c0|es]; [eauto|].
    destruct (es !! x) as [n0|] eqn:E.
    - destruct (IH n0 Hd) as [e ->]. eauto.
    - destruct pd; simpl; eauto. }
  assert (Hc : Fs.exists_ (config_path pd) (fs w) = false).
  { unfold Fs.exists_, config_path, os_path_join in *. rewrite FsFacts.stat_app.
    by destruct (Fs.stat pd (fs w)). }
  destruct (Hw (yaml_dump h default_config)) as [e W]. exists e.
  unfold init_project, os_path_exists, open_write, mbind, M_bind.
  fold (config_path pd). fold default_config. by rewrite Hc, W.
Qed.

Lemma init_project_without_directory_witness :
  Fs.exists_ ["elsewhere"] (fs (Demo.world Demo.bare)) = false /\
  exists e : Exn,
    init_project Demo.linux ["elsewhere"] (Demo.world Demo.bare) = Raise e (Demo.world Demo.bare).
Proof.
  split; [reflexivity|].
  exact (init_project_without_directory Demo.linux ["elsewhere"] (Demo.world Demo.bare) eq_refl).
Defined.

Lemma init_project_no_retry_witness :
  let w := Demo.world Demo.bare in
  let n1 := Dir (<["proj" := Dir (<[NOETRY_YML := File ("python_version: '3.9'" +:+ newline)]> ∅)]> ∅) in
  Fs.exists_ (config_path ["proj"]) (fs w) = false /\
  Fs.write (config_path ["proj"]) (yaml_dump host_without_venv default_config) (fs w) = inr n1 /\
  venv_create host_without_venv (venv_path ["proj"]) n1 = (n1, Some (HostError "ensurepip")) /\
  Fs.exists_ (config_path ["proj"]) n1 = true /\
  exists w1 : World,
    init_project host_without_venv ["proj"] w = Raise (HostError "ensurepip") w1 /\
    fs w1 = n1 /\
    init_project host_without_venv ["proj"] w1 =
      Ok tt (emit (EvPrint ".noetry.yml already exists.") w1).
Proof.
  intros w n1.
  do 4 (split; [reflexivity|]).
  exact (init_project_no_retry host_without_venv ["proj"] w n1 n1 (HostError "ensurepip")
           eq_refl eq_refl eq_refl eq_refl).
Defined.

(* ===================================================================== *)
(** ** Beyond the claims: the import *)
(* ===================================================================== *)

(** X11. Without a [pyproject.toml] the import only says so: nothing is
    written, [init_project] is not reached, so that no configuration and
    no environment appear. *)
Theorem convert_without_manifest (h : Host) (pd : Path) (w : World) :
  Fs.exists_ (poetry_path pd) (fs w) = false ->
  convert_from_poetry h pd w =
    Ok tt (emit (EvPrint "Error: pyproject.toml not found in the current directory.") w).
Proof.
  intros Hp. unfold convert_from_poetry, os_path_exists, mbind, M_bind.
  fold (poetry_path pd). by rewrite Hp.
Qed.

Lemma convert_without_manifest_witness :
  Fs.exists_ (poetry_path ["proj"]) (fs (Demo.world Demo.with_env)) = false /\
  convert_from_poetry Demo.linux ["proj"] (Demo.world Demo.with_env) =
    Ok tt (emit (EvPrint "Error: pyproject.toml not found in the current directory.")
             (Demo.world Demo.with_env)).
Proof.
  split; [reflexivity|].
  exact (convert_without_manifest Demo.linux ["proj"] (Demo.world Demo.with_env) eq_refl).
Defined.

(** X12. A Poetry manifest whose [dependencies] or [dev-dependencies] is
    not a table stops the import on a [TypeError] before anything is
    written or printed. *)
Theorem convert_rejects_non_table_group
    (h : Host) (pd : Path) (w : World) (text : string) (doc : dict) (deps dev : toml) :
  Fs.read (poetry_path pd) (fs w) = inr text ->
  toml_load h text = inr doc ->
  poetry_group "dependencies" doc = inr deps ->
  poetry_group "dev-dependencies" doc = inr dev ->
  (forall d, deps <> TTable d) \/ (forall d, dev <> TTable d) ->
  convert_from_poetry h pd w = Raise TypeError w.
Proof.
  intros Hread Hload Hdeps Hdev Hbad.
  assert (Hm : merged_dependencies deps dev = inl TypeError).
  { destruct deps as [s|d|t], dev as [s'|d'|t']; try reflexivity.
    destruct Hbad as [H|H]; [by destruct (H d) | by destruct (H d')]. }
  unfold convert_from_poetry, os_path_exists, open_read, lift, raise, mbind, M_bind,
    mret, M_ret.
  fold (poetry_path pd).
  rewrite (Importer.read_exists _ _ _ Hread). cbn [negb]. cbv beta iota.
  rewrite Hread. cbv beta iota. rewrite Hload. cbv beta iota.
  rewrite Hdeps. cbv beta iota. rewrite Hdev. cbv beta iota. by rewrite Hm.
Qed.

(** X13. A Poetry manifest whose [tool] entry is not a table stops the
    import on an [AttributeError] before anything is written or printed. *)
Theorem convert_rejects_non_table_tool
    (h : Host) (pd : Path) (w : World) (text : string) (doc : dict) (v : toml) :
  Fs.read (poetry_path pd) (fs w) = inr text ->
  toml_load h text = inr doc ->
  Dict.lookup "tool" doc = Some v ->
  (forall d, v <> TTable d) ->
  convert_from_poetry h pd w = Raise AttributeError w.
Proof.
  intros Hread Hload Htool Hbad.
  assert (Hg : poetry_group "dependencies" doc = inl AttributeError).
  { unfold poetry_group, py_get. rewrite Htool.
    destruct v as [s|d|t]; try reflexivity. by destruct (Hbad d). }
  unfold convert_from_poetry, os_path_exists, open_read, lift, raise, mbind, M_bind,
    mret, M_ret.
  fold (poetry_path pd).
  rewrite (Importer.read_exists _ _ _ Hread). cbn [negb]. cbv beta iota.
  rewrite Hread. cbv beta iota. rewrite Hload. cbv beta iota. by rewrite Hg.
Qed.

(** X14. A [pyproject.toml] without a [tool] table is imported as a
    project without dependencies: the manifest is overwritten with empty
    content. *)
Theorem convert_without_poetry_section
    (h : Host) (pd : Path) (w : World) (text : string) (doc : dict) :
  Fs.read (poetry_path pd) (fs w) = inr text ->
  toml_load h text = inr doc ->
  Dict.lookup "tool" doc = None ->
  Fs.is_dir (manifest_path pd) (fs w) = false ->
  exists rest,
    trace (world_of (convert_from_poetry h pd w)) =
    trace w ++ EvWrite (manifest_path pd) "" :: rest.
Proof.
  intros Hread Hload Htool Hfree.
  assert (Hg : forall g, poetry_group g doc = inr (TTable [])).
  { intros g. unfold poetry_group, py_get. by rewrite Htool. }
  exact (Importer.convert_writes h pd w text doc [] (TTable []) (TTable [])
           Hread Hload (Hg _) (Hg _) eq_refl Hfree).
Qed.

(** X15. The lines of the imported manifest come in the order of the
    merged dictionary: first the keys of the runtime table other than
    [python], in their order, then the keys that only the development
    table has, in theirs; no key comes twice. *)
Theorem import_line_order (deps dev merged : dict) :
  List.NoDup (Dict.keys deps) ->
  List.NoDup (Dict.keys dev) ->
  merged_dependencies (TTable deps) (TTable dev) = inr merged ->
  Dict.keys merged =
    Dict.keys (Dict.del "python" deps) ++ new_keys (Dict.del "python" deps) dev /\
  List.NoDup (Dict.keys merged).
Proof.
  intros Nd Ndev Hm. unfold merged_dependencies in Hm.
  assert (E : (if Dict.mem "python" deps then Dict.del "python" deps else deps) =
              Dict.del "python" deps).
  { destruct (Dict.mem "python" deps) eqn:Hp; [done|]. by rewrite MoreDict.del_absent. }
  rewrite E in Hm. injection Hm as <-.
  split; [by apply MoreDict.keys_merge|].
  apply DictFacts.NoDup_merge. by apply DictFacts.NoDup_del.
Qed.

Lemma import_line_order_witness :
  let deps := [("python", TStr "^3.9"); ("A", TStr "^1.0"); ("B", TStr "^2.0")] in
  let dev := [("C", TStr "^1.0"); ("B", TStr "^3.0"); ("D", TStr "*")] in
  exists merged,
    merged_dependencies (TTable deps) (TTable dev) = inr merged /\
    Dict.keys merged = ["A"; "B"; "C"; "D"].
Proof.
  intros deps dev. eexists. split; [reflexivity|].
  refine (proj1 (import_line_order deps dev _ _ _ eq_refl));
    repeat constructor; simpl; intuition discriminate.
Defined.

Lemma convert_rejects_non_table_group_witness :
  let doc := [("tool", TTable [("poetry", TTable [("dependencies", TStr "requests")])])] in
  let w := Demo.world Demo.poetry_project in
  Fs.read (poetry_path ["proj"]) (fs w) = inr Demo.sample_text /\
  poetry_group "dependencies" doc = inr (TStr "requests") /\
  poetry_group "dev-dependencies" doc = inr (TTable []) /\
  convert_from_poetry (host_reading doc) ["proj"] w = Raise TypeError w.
Proof.
  intros doc w. do 3 (split; [reflexivity|]).
  refine (convert_rejects_non_table_group (host_reading doc) ["proj"] w Demo.sample_text doc
            (TStr "requests") (TTable []) eq_refl eq_refl eq_refl eq_refl (or_introl _)).
  intros d H. discriminate H.
Defined.

Lemma convert_rejects_non_table_tool_witness :
  let doc := [("tool", TStr "poetry")] in
  let w := Demo.world Demo.poetry_project in
  Fs.read (poetry_path ["proj"]) (fs w) = inr Demo.sample_text /\
  Dict.lookup "tool" doc = Some (TStr "poetry") /\
  convert_from_poetry (host_reading doc) ["proj"] w = Raise AttributeError w.
Proof.
  intros doc w. do 2 (split; [reflexivity|]).
  refine (convert_rejects_non_table_tool (host_reading doc) ["proj"] w Demo.sample_text doc
            (TStr "poetry") eq_refl eq_refl eq_refl _).
  intros d H. discriminate H.
Defined.

Lemma convert_without_poetry_section_witness :
  let doc := [("project", TTable [("name", TStr "demo")])] in
  let w := Demo.world converted_before in
  Fs.read (poetry_path ["proj"]) (fs w) = inr Demo.sample_text /\
  Dict.lookup "tool" doc = None /\
  Fs.is_dir (manifest_path ["proj"]) (fs w) = false /\
  Fs.read (manifest_path ["proj"]) (fs w) = inr "old==0.1" /\
  exists rest,
    trace (world_of (convert_from_poetry (host_reading doc) ["proj"] w)) =
    trace w ++ EvWrite (manifest_path ["proj"]) "" :: rest.
Proof.
  intros doc w. do 4 (split; [reflexivity|]).
  exact (convert_without_poetry_section (host_reading doc) ["proj"] w Demo.sample_text doc
           eq_refl eq_refl eq_refl eq_refl).
Defined.

(** X16. In a project that already has its configuration the import
    rewrites the manifest and nothing else: the old manifest is replaced
    by the imported lines, the configuration is as it was, no environment
    is created, and the import returns. *)
Theorem convert_in_initialised_project
    (h : Host) (pd : Path) (w : World) (text : string) (doc merged : dict) (deps dev : toml) :
  Fs.read (poetry_path pd) (fs w) = inr text ->
  toml_load h text = inr doc ->
  poetry_group "dependencies" doc = inr deps ->
  poetry_group "dev-dependencies" doc = inr dev ->
  merged_dependencies deps dev = inr merged ->
  Fs.is_dir (manifest_path pd) (fs w) = false ->
  Fs.exists_ (config_path pd) (fs w) = true ->
  let content := String.concat newline (map (requirement_line h) merged) in
  exists w' : World,
    convert_from_poetry h pd w = Ok tt w' /\
    Fs.read (manifest_path pd) (fs w') = inr content /\
    Fs.stat (config_path pd) (fs w') = Fs.stat (config_path pd) (fs w) /\
    trace w' = trace w ++ [EvWrite (manifest_path pd) content;
                           EvPrint ".noetry.yml already exists.";
                           EvPrint "Converted Poetry project to Noetry."].
Proof.
  intros Hread Hload Hdeps Hdev Hmerged Hfree Hc content.
  destruct (FsFacts.write_in_dir pd "requirements.txt" content (fs w)
              (Importer.parent_is_dir _ _ _ _ Hread) Hfree) as [n' W].
  assert (Hframe : Fs.stat (config_path pd) n' = Fs.stat (config_path pd) (fs w)).
  { apply (FsFacts.write_frame pd "requirements.txt" NOETRY_YML [] [] content (fs w) n');
      [discriminate | exact W]. }
  assert (Hc' : Fs.exists_ (config_path pd) n' = true).
  { unfold Fs.exists_ in *. by rewrite Hframe. }
  exists {| fs := n';
            trace := ((trace w ++ [EvWrite (manifest_path pd) content]) ++
                      [EvPrint ".noetry.yml already exists."]) ++
                      [EvPrint "Converted Poetry project to Noetry."] |}.
  split.
  - unfold convert_from_poetry, os_path_exists, open_read, open_write, lift,
      mbind, M_bind, mret, M_ret.
    fold (poetry_path pd). fold (manifest_path pd).
    rewrite (Importer.read_exists _ _ _ Hread). cbn [negb]. cbv beta iota.
    rewrite Hread. cbv beta iota. rewrite Hload. cbv beta iota.
    rewrite Hdeps. cbv beta iota. rewrite Hdev. cbv beta iota.
    rewrite Hmerged. cbv beta iota. fold content.
    unfold manifest_path, os_path_join in *. rewrite W. cbv beta iota.
    unfold init_project, os_path_exists, mbind, M_bind.
    fold (config_path pd). cbn [fs]. rewrite Hc'. reflexivity.
  - cbn [fs trace]. split; [by apply (FsFacts.write_read _ _ _ _ W)|].
    split; [done|]. by rewrite <- !app_assoc.
Qed.

Lemma convert_in_initialised_project_witness :
  let w := Demo.world converted_before in
  Fs.read (poetry_path ["proj"]) (fs w) = inr Demo.sample_text /\
  Fs.read (manifest_path ["proj"]) (fs w) = inr "old==0.1" /\
  Fs.exists_ (config_path ["proj"]) (fs w) = true /\
  exists w' : World,
    convert_from_poetry Demo.linux ["proj"] w = Ok tt w' /\
    Fs.read (manifest_path ["proj"]) (fs w') =
      inr ("A^1.0" +:+ newline +:+ "B^3.0" +:+ newline +:+ "C^1.0") /\
    Fs.stat (config_path ["proj"]) (fs w') = Fs.stat (config_path ["proj"]) (fs w) /\
    trace w' = trace w ++ [EvWrite (manifest_path ["proj"])
                             ("A^1.0" +:+ newline +:+ "B^3.0" +:+ newline +:+ "C^1.0");
                           EvPrint ".noetry.yml already exists.";
                           EvPrint "Converted Poetry project to Noetry."].
Proof.
  intros w. do 3 (split; [reflexivity|]).
  exact (convert_in_initialised_project Demo.linux ["proj"] w Demo.sample_text
           Demo.sample_doc _ _ _ eq_refl eq_refl eq_refl eq_refl eq_refl eq_refl eq_refl).
Defined.

(* ===================================================================== *)
(** ** Beyond the claims: the dispatcher and the configuration reader *)
(* ===================================================================== *)

(** X17. A command word that [main] does not know only prints: "Unknown
    command" and the help text, whatever the arguments that follow; no
    file changes and nothing is started.  Where the working directory is
    gone, [os.getcwd] raises [FileNotFoundError] before that, and nothing
    is printed. *)
Theorem main_unknown_command
    (h : Host) (prog cmd : string) (args : list string) (w : World) :
  ~ In cmd known_commands ->
  main h (prog :: cmd :: args) w =
    if Fs.is_dir (getcwd h) (fs w)
    then Ok tt (emit (EvPrint help_text) (emit (EvPrint ("Unknown command: " +:+ cmd)) w))
    else Raise FileNotFoundError w.
Proof.
  intros Hk. unfold known_commands in Hk. simpl in Hk.
  unfold main, os_getcwd, mbind, M_bind.
  destruct (Fs.is_dir (getcwd h) (fs w)); [|done].
  repeat match goal with
  | |- context [String.eqb cmd ?s] =>
      destruct (String.eqb_spec cmd s) as [->|?]; [exfalso; apply Hk; tauto|]
  end.
  reflexivity.
Qed.

Lemma main_unknown_command_witness :
  ~ In "instal" known_commands /\
  main Demo.linux ["noetry"; "instal"; "requests"] (Demo.world Demo.with_env) =
    Ok tt (emit (EvPrint help_text)
             (emit (EvPrint "Unknown command: instal") (Demo.world Demo.with_env))) /\
  main Demo.linux ["noetry"; "instal"; "requests"] (Demo.world (Dir ∅)) =
    Raise FileNotFoundError (Demo.world (Dir ∅)).
Proof.
  assert (H : ~ In "instal" known_commands) by (simpl; intuition discriminate).
  split; [exact H|]. split.
  - exact (main_unknown_command Demo.linux "noetry" "instal" ["requests"]
             (Demo.world Demo.with_env) H).
  - exact (main_unknown_command Demo.linux "noetry" "instal" ["requests"]
             (Demo.world (Dir ∅)) H).
Defined.

(** X18. [get_project_config] only reads: it leaves the files and the
    trace as they are whether it returns or raises, and in a project
    directory without [.noetry.yml] it raises [FileNotFoundError]. *)
Theorem get_project_config_reads_only
    {C : Type} (load : string -> Exn + C) (pd : Path) (w : World) :
  world_of (get_project_config load pd w) = w /\
  (Fs.is_dir pd (fs w) = true ->
   Fs.exists_ (config_path pd) (fs w) = false ->
   get_project_config load pd w = Raise FileNotFoundError w).
Proof.
  unfold get_project_config, open_read, lift, raise, mbind, M_bind, mret, M_ret.
  fold (config_path pd). split.
  - destruct (Fs.read (config_path pd) (fs w)) as [e|text]; [done|].
    by destruct (load text).
  - intros Hd Hc. unfold Fs.read.
    pose proof (FsFacts.missing_below_dir pd NOETRY_YML (fs w) Hd Hc []) as Hs.
    change (pd ++ [NOETRY_YML]) with (config_path pd) in Hs. by rewrite Hs.
Qed.

(** X19. What a first [init_project] wrote is what [get_project_config]
    reads back: after an initialisation that returned, in a project that
    had no configuration and whose new environment left the configuration
    file alone, the reader is applied to the dump of the default
    configuration. *)
Theorem init_then_get_project_config
    {C : Type} (load : string -> Exn + C) (h : Host) (pd : Path) (w w1 : World) :
  Fs.exists_ (config_path pd) (fs w) = false ->
  init_project h pd w = Ok tt w1 ->
  (forall n1, Fs.write (config_path pd) (yaml_dump h default_config) (fs w) = inr n1 ->
              Fs.read (config_path pd) (fst (venv_create h (venv_path pd) n1)) =
              Fs.read (config_path pd) n1) ->
  get_project_config load pd w1 =
    match load (yaml_dump h default_config) with
    | inr c => Ok c w1
    | inl e => Raise e w1
    end.
Proof.
  intros Hc Hinit Hkeep.
  unfold init_project, create_virtualenv, venv_create_call, os_path_exists, open_write,
    print, emit, mbind, M_bind in Hinit.
  fold (config_path pd) in Hinit. fold (venv_path pd) in Hinit.
  fold default_config in Hinit. rewrite Hc in Hinit.
  destruct (Fs.write (config_path pd) (yaml_dump h default_config) (fs w))
    as [e|n1] eqn:W; [discriminate|].
  specialize (Hkeep n1 eq_refl). rewrite (FsFacts.write_read _ _ _ _ W) in Hkeep.
  cbn [fs trace] in Hinit.
  destruct (venv_create h (venv_path pd) n1) as [n2 [e|]]; [discriminate|].
  injection Hinit as <-. cbn [fst] in Hkeep.
  unfold get_project_config, open_read, lift, raise, mbind, M_bind, mret, M_ret.
  fold (config_path pd). cbn [fs]. rewrite Hkeep.
  by destruct (load (yaml_dump h default_config)).
Qed.

Lemma init_then_get_project_config_witness :
  exists w1 : World,
    Fs.exists_ (config_path ["proj"]) (fs (Demo.world Demo.bare)) = false /\
    init_project Demo.linux ["proj"] (Demo.world Demo.bare) = Ok tt w1 /\
    get_project_config read_default_yaml ["proj"] w1 = Ok default_config w1.
Proof.
  eexists. split; [reflexivity|].
  assert (Hi : init_project Demo.linux ["proj"] (Demo.world Demo.bare) =
               Ok tt (world_of (init_project Demo.linux ["proj"] (Demo.world Demo.bare))))
    by reflexivity.
  split; [exact Hi|].
  refine (init_then_get_project_config read_default_yaml Demo.linux ["proj"]
            (Demo.world Demo.bare) _ eq_refl Hi _).
  intros n1 [= <-]. reflexivity.
Defined.

Lemma get_project_config_reads_only_witness :
  Fs.is_dir ["proj"] (fs (Demo.world Demo.with_env)) = true /\
  Fs.exists_ (config_path ["proj"]) (fs (Demo.world Demo.with_env)) = false /\
  get_project_config read_default_yaml ["proj"] (Demo.world Demo.with_env) =
    Raise FileNotFoundError (Demo.world Demo.with_env).
Proof.
  split; [reflexivity|]. split; [reflexivity|].
  exact (proj2 (get_project_config_reads_only read_default_yaml ["proj"]
                  (Demo.world Demo.with_env)) eq_refl eq_refl).
Defined.
